(** * Greenhouse hub firmware: node registry, control send, telemetry
      ingestion, settings store and the pull phase of the remote sync.

    Shallow embedding of
      hardware/esp32_hub_firmware/data_structures.h
      hardware/esp32_hub_firmware/esp_now_comm.cpp
      hardware/esp32_hub_firmware/settings_eeprom.cpp
      hardware/esp32_hub_firmware/wifi_firebase.cpp  (download loop)

    The firmware is single threaded and works on one global array
    [greenhouses]; here every function takes the [World] and returns the
    new one.  Radio transmissions, flash commits and writes to the remote
    database are appended to [trace] in the order the code issues them. *)

From Stdlib Require Import ZArith Bool Lia Ascii String QArith Qpower.
From Stdlib Require Import Floats.SpecFloat.
From stdpp Require Import base option list functions gmap strings.

Local Open Scope Z_scope.
Local Open Scope nat_scope.

(** ** C scalars *)

(** [float] is IEEE binary32: 24 bits of precision, exponents below 128. *)
Definition float : Type := spec_float.
Definition prec : Z := 24.
Definition emax : Z := 128.

(** An integer literal converted to [float] (0, 5, 50 and 999 are exact). *)
Definition float_of_Z (z : Z) : float := binary_normalize prec emax z 0 false.

(** The two defaults of [GreenhouseSettings]: 25.0 and 0.5 (= 1 * 2^-1). *)
Definition default_temperatureThreshold : float := float_of_Z 25.
Definition default_hysteresis : float := binary_normalize prec emax 1 (-1) false.

Definition isnan (x : float) : bool :=
  match x with S754_nan => true | _ => false end.

(** [a < b], [a > b] and [a != b] on floats, with the IEEE treatment of NaN
    (every ordered comparison with NaN is false, [NaN != x] is true). *)
Definition flt (a b : float) : bool := SFltb a b.
Definition fgt (a b : float) : bool := SFltb b a.
Definition fne (a b : float) : bool := negb (SFeqb a b).

(** Neither NaN nor an infinity. *)
Definition is_finite (x : float) : bool :=
  match x with S754_zero _ | S754_finite _ _ _ => true | _ => false end.

(** The rational number a finite float stands for: [(-1)^s * m * 2^e]. *)
Definition F2Q (x : float) : Q :=
  match x with
  | S754_finite s m e => (inject_Z (cond_Zopp s (Zpos m)) * 2 ^ e)%Q
  | _ => 0%Q
  end.

(** The load-time test [isnan(x) || x < 0 || x > hi]. *)
Definition rejected (hi : float) (x : float) : bool :=
  isnan x || flt x (float_of_Z 0) || fgt x hi.

(** [unsigned long] is 32 bits wide on the ESP32; subtraction wraps. *)
Definition ulong_sub (a b : Z) : Z := ((a - b) mod 2 ^ 32)%Z.
Definition uint32_t (a : Z) : Z := (a mod 2 ^ 32)%Z.

(** An [int] passed where a [uint8_t] parameter is expected. *)
Definition uint8_t (i : nat) : nat := i mod 256.

(** [char] values used as manual commands; [NUL] is "no command". *)
Definition NUL : ascii := Ascii.zero.
Definition cmd_O : ascii := "O"%char.
Definition cmd_C : ascii := "C"%char.
Definition cmd_S : ascii := "S"%char.

(** ** data_structures.h *)

Record SensorData := mkSensorData {
  nodeId : nat;            (* uint8_t *)
  temperature : float;
  humidity : float;
  pressure : float;
  ventStatus : nat;        (* uint8_t; 0:closed, 1:opening, 2:open, 3:closing *)
  timestamp : Z;           (* uint32_t *)
}.

Record ScheduleSettings := mkScheduleSettings {
  openHour : nat;
  openMinute : nat;
  closeHour : nat;
  closeMinute : nat;
  scheduleEnabled : bool;
}.

Record GreenhouseSettings := mkGreenhouseSettings {
  temperatureThreshold : float;
  hysteresis : float;
  autoMode : bool;
  manualCommand : ascii;
  schedule : ScheduleSettings;
}.

Record GreenhouseData := mkGreenhouseData {
  sensor : SensorData;
  settings : GreenhouseSettings;
  isOnline : bool;
  lastSeen : Z;            (* unsigned long *)
}.

(** Outgoing control message; the fields carry the prefix [msg_] because
    three of them share their name with fields of [GreenhouseSettings]. *)
Record ControlMessage := mkControlMessage {
  msg_targetNodeId : nat;
  msg_tempThreshold : float;
  msg_hysteresis : float;
  msg_autoMode : bool;
  msg_manualCommand : ascii;
}.

(** The in-class initialisers of the structs; a global [GreenhouseData] is
    zero-initialised apart from them. *)
Definition default_schedule : ScheduleSettings :=
  mkScheduleSettings 8 0 18 0 false.
Definition default_settings : GreenhouseSettings :=
  mkGreenhouseSettings default_temperatureThreshold default_hysteresis true NUL
                       default_schedule.
Definition zero_sensor : SensorData :=
  mkSensorData 0 (S754_zero false) (S754_zero false) (S754_zero false) 0 0.
Definition initial_greenhouse : GreenhouseData :=
  mkGreenhouseData zero_sensor default_settings false 0.

Global Instance GreenhouseData_inhabited : Inhabited GreenhouseData :=
  populate initial_greenhouse.

(** Field assignments. *)
Definition set_temperatureThreshold (v : float) (s : GreenhouseSettings) :=
  mkGreenhouseSettings v (hysteresis s) (autoMode s) (manualCommand s) (schedule s).
Definition set_hysteresis (v : float) (s : GreenhouseSettings) :=
  mkGreenhouseSettings (temperatureThreshold s) v (autoMode s) (manualCommand s) (schedule s).
Definition set_autoMode (v : bool) (s : GreenhouseSettings) :=
  mkGreenhouseSettings (temperatureThreshold s) (hysteresis s) v (manualCommand s) (schedule s).
Definition set_manualCommand (v : ascii) (s : GreenhouseSettings) :=
  mkGreenhouseSettings (temperatureThreshold s) (hysteresis s) (autoMode s) v (schedule s).
Definition with_settings (f : GreenhouseSettings → GreenhouseSettings)
    (g : GreenhouseData) : GreenhouseData :=
  mkGreenhouseData (sensor g) (f (settings g)) (isOnline g) (lastSeen g).

(** ** The remote database, as far as the firmware reads it *)

(** The document at /greenhouses/{i}/settings after [json.get] and
    [result.to<T>()]: a field is [None] when [result.success] is false. *)
Record SettingsDoc := mkSettingsDoc {
  doc_temperatureThreshold : option float;
  doc_hysteresis : option float;
  doc_mode : option string;
  doc_manualControl : option string;
}.

Record Remote := mkRemote {
  settingsDocs : gmap nat SettingsDoc;      (* /greenhouses/{i}/settings *)
  lastControlAll : option (string * Z);     (* /system/lastControlAll *)
}.

(** ** Effects *)

Inductive Event :=
| EspNowSend (msg : ControlMessage) (ok : bool)
    (* esp_now_send to FF:FF:FF:FF:FF:FF; [ok] is [result == ESP_OK] *)
| EepromCommit
    (* EEPROM.commit() *)
| RtdbClearManualControl (i : nat) (ok : bool)
    (* updateNode /greenhouses/{i}/settings {"manualControl": null} *)
| RtdbSetLastControlAll (action : string) (timestamp : Z) (ok : bool).
    (* setJSON /system/lastControlAll {"action":..,"timestamp":..} *)

Record World := mkWorld {
  greenhouses : list GreenhouseData;        (* GreenhouseData[MAX_GREENHOUSES + 1] *)
  EEPROM : nat → GreenhouseSettings;        (* slot k lives at k * sizeof(GreenhouseSettings) *)
  RTDB : Remote;
  trace : list Event;
}.

Definition log (e : Event) (w : World) : World :=
  mkWorld (greenhouses w) (EEPROM w) (RTDB w) (trace w ++ [e]).

(** [greenhouses[i].settings.<field> = v] *)
Definition upd_settings (i : nat) (f : GreenhouseSettings → GreenhouseSettings)
    (w : World) : World :=
  mkWorld (<[i := with_settings f (greenhouses w !!! i)]> (greenhouses w))
          (EEPROM w) (RTDB w) (trace w).

Definition is_send (e : Event) : bool :=
  match e with EspNowSend _ _ => true | _ => false end.
Definition is_send_to (i : nat) (e : Event) : bool :=
  match e with EspNowSend m _ => Nat.eqb (msg_targetNodeId m) i | _ => false end.
Definition is_commit (e : Event) : bool :=
  match e with EepromCommit => true | _ => false end.

(** Number of radio transmissions in a trace, and of those naming node [i]. *)
Definition sends (tr : list Event) : nat := length (List.filter is_send tr).
Definition sends_to (i : nat) (tr : list Event) : nat :=
  length (List.filter (is_send_to i) tr).
Definition commits (tr : list Event) : nat := length (List.filter is_commit tr).

(** Liveness as the upload loop of [syncWithFirebase] tests it:
    [isOnline && (millis() - lastSeen < 300000)]. *)
Definition isLive (now : Z) (g : GreenhouseData) : bool :=
  isOnline g && (ulong_sub now (lastSeen g) <? 300000)%Z.

(** The message built for node [n] from its record. *)
Definition controlMsg_of (n : nat) (g : GreenhouseData) : ControlMessage :=
  mkControlMessage n (temperatureThreshold (settings g)) (hysteresis (settings g))
                   (autoMode (settings g)) (manualCommand (settings g)).

(** ** A small installation used in the examples *)

(** Three nodes: node 1 has never been heard of and has a command waiting
    in its record, nodes 2 and 3 sent telemetry when the clock read 0. *)
Definition node_unseen (cmd : ascii) : GreenhouseData :=
  mkGreenhouseData zero_sensor (set_manualCommand cmd default_settings) false 0.
Definition node_seen (seen : Z) : GreenhouseData :=
  mkGreenhouseData zero_sensor default_settings true seen.

Definition example_world : World :=
  mkWorld [initial_greenhouse; node_unseen cmd_O; node_seen 0; node_seen 0]
          (λ _, default_settings) (mkRemote ∅ None) [].

(** The same installation with a flash that holds garbage in slot 0 and an
    out-of-range threshold in slot 1. *)
Definition example_flash (slot : nat) : GreenhouseSettings :=
  match slot with
  | 0 => mkGreenhouseSettings S754_nan (float_of_Z (-1)) true NUL default_schedule
  | 1 => mkGreenhouseSettings (float_of_Z 999) (float_of_Z 2) false NUL default_schedule
  | _ => default_settings
  end.
Definition example_world_flash : World :=
  mkWorld (greenhouses example_world) example_flash (mkRemote ∅ None) [].

(** A radio on which every transmission succeeds, one on which every
    transmission fails, and a database link that is up. *)
Definition radio_ok : list Event → ControlMessage → bool := λ _ _, true.
Definition radio_down : list Event → ControlMessage → bool := λ _ _, false.
Definition link_up : list Event → bool := λ _, true.

(** A database link on which every write fails. *)
Definition link_down : list Event → bool := λ _, false.

(** Remote settings documents. *)
Definition doc_empty : SettingsDoc := mkSettingsDoc None None None None.
Definition doc_two_numbers : SettingsDoc :=
  mkSettingsDoc (Some (float_of_Z 30)) (Some (float_of_Z 1)) None None.
Definition doc_open : SettingsDoc :=
  mkSettingsDoc (Some (float_of_Z 30)) (Some (float_of_Z 1)) None (Some "open"%string).
Definition doc_999 : SettingsDoc :=
  mkSettingsDoc (Some (float_of_Z 999)) None None None.

(** A 24-byte telemetry packet whose first byte is the node id; the
    example reads nothing else from it. *)
Definition example_SensorData (data : list Byte.byte) : SensorData :=
  mkSensorData (match data with b :: _ => Byte.to_nat b | [] => 0 end)
               (S754_zero false) (S754_zero false) (S754_zero false) 0 0.
Definition packet_from (b : Byte.byte) : list Byte.byte := b :: replicate 23 Byte.x00.

(** The test of the loop of [sendControlToAllNodes], negated: the node is
    not passed over. *)
Definition commanded (now : Z) (g : GreenhouseData) : bool :=
  negb (negb (isOnline g) || (300000 <? ulong_sub now (lastSeen g))%Z).

(** ** JSON objects the upload loop builds *)

Inductive JsonValue :=
| JInt (n : Z)
| JFloat (x : float)
| JBool (b : bool)
| JString (s : string).

(** A [FirebaseJson] filled by [json.set(key, value)] calls with distinct
    keys. *)
Definition FirebaseJson : Type := list (string * JsonValue).

Definition json_get (key : string) (json : FirebaseJson) : option JsonValue :=
  snd <$> List.find (λ kv, String.eqb (fst kv) key) json.

(** The [switch] on [sensor.ventStatus]. *)
Definition ventStatus_name (v : nat) : string :=
  match v with
  | 0 => "closed"
  | 1 => "opening"
  | 2 => "open"
  | 3 => "closing"
  | _ => "unknown"
  end.

Definition currentData_json (s : SensorData) : FirebaseJson :=
  [("nodeId", JInt (Z.of_nat (nodeId s)));
   ("temperature", JFloat (temperature s));
   ("humidity", JFloat (humidity s));
   ("pressure", JFloat (pressure s));
   ("ventStatus", JInt (Z.of_nat (ventStatus s)));
   ("timestamp", JInt (timestamp s))]%string.

Definition settings_json (g : GreenhouseData) : FirebaseJson :=
  [("temperatureThreshold", JFloat (temperatureThreshold (settings g)));
   ("hysteresis", JFloat (hysteresis (settings g)));
   ("mode", JString (if autoMode (settings g) then "auto" else "manual"));
   ("ventStatus", JString (ventStatus_name (ventStatus (sensor g))));
   ("scheduleOpenHour", JInt (Z.of_nat (openHour (schedule (settings g)))));
   ("scheduleOpenMinute", JInt (Z.of_nat (openMinute (schedule (settings g)))));
   ("scheduleCloseHour", JInt (Z.of_nat (closeHour (schedule (settings g)))));
   ("scheduleCloseMinute", JInt (Z.of_nat (closeMinute (schedule (settings g)))));
   ("scheduleEnabled", JBool (scheduleEnabled (schedule (settings g))))]%string.

(** The two [setJSON] calls of the upload loop, with their outcome. *)
Inductive UploadWrite :=
| SetCurrentData (i : nat) (json : FirebaseJson) (ok : bool)
    (* setJSON /greenhouses/{i}/currentData *)
| SetSettings (i : nat) (json : FirebaseJson) (ok : bool).
    (* setJSON /greenhouses/{i}/settings *)

(** Records, remote documents and transmissions of node [i] are the same
    in [w'] as in [w]. *)
Definition same_at (i : nat) (w w' : World) : Prop :=
  greenhouses w' !!! i = greenhouses w !!! i ∧
  settingsDocs (RTDB w') !! i = settingsDocs (RTDB w) !! i ∧
  sends_to i (trace w') = sends_to i (trace w) ∧
  length (greenhouses w') = length (greenhouses w).

(** ** More of the example installation *)

(** Node 2 with the command 'C' waiting in its record. *)
Definition example_world_cmd : World :=
  mkWorld [initial_greenhouse; node_unseen cmd_O;
           with_settings (set_manualCommand cmd_C) (node_seen 0); node_seen 0]
          (λ _, default_settings) (mkRemote ∅ None) [].

(** The remote store holds an edited document for node 2: another
    threshold and hysteresis and the command "open". *)
Definition example_world_remote : World :=
  mkWorld (greenhouses example_world) (λ _, default_settings)
          (mkRemote {[2 := doc_open]} None) [].

Definition doc_manual : SettingsDoc :=
  mkSettingsDoc None None (Some "manual"%string) None.
Definition doc_stop : SettingsDoc :=
  mkSettingsDoc None None None (Some "stop"%string).

(** Uploads that get through, and floats that read back from JSON as
    written. *)
Definition uploads_ok : nat → bool * bool := λ _, (true, true).
Definition json_exact : float → float := λ x, x.

Section Hub.

(** [config.h] is not part of the sources at hand. *)
Variable MAX_GREENHOUSES : nat.

(** The radio and the network are outside the firmware: whether a
    transmission or a database write succeeds is a function of everything
    that happened before it. *)
Variable esp_now_send : list Event → ControlMessage → bool.
Variable rtdb_write : list Event → bool.

(** ** esp_now_comm.cpp *)

(** Serial output and the registration of the broadcast peer are left
    out: they touch neither the registry nor the message. *)
Definition sendControlToNode (nodeId : nat) (w : World) : World :=
  let g := greenhouses w !!! nodeId in
  if negb (isOnline g) then w
  else
    let controlMsg :=
      mkControlMessage nodeId
        (temperatureThreshold (settings g))
        (hysteresis (settings g))
        (autoMode (settings g))
        (manualCommand (settings g)) in
    let result := esp_now_send (trace w) controlMsg in
    let w := log (EspNowSend controlMsg result) w in
    upd_settings nodeId (set_manualCommand NUL) w.

(** One iteration of the loop of [sendControlToAllNodes]; [now] is what
    [millis()] returns in this iteration. *)
Definition sendControlToAllNodes_step (now : Z) (command : ascii)
    (w : World) (i : nat) : World :=
  let g := greenhouses w !!! i in
  if negb (isOnline g) || (300000 <? ulong_sub now (lastSeen g))%Z then w
  else
    let w := upd_settings i (set_manualCommand command) w in
    let w := if Ascii.eqb command cmd_O || Ascii.eqb command cmd_C
             then upd_settings i (set_autoMode false) w else w in
    sendControlToNode (uint8_t i) w.

Definition lastControlAll_action (command : ascii) : string :=
  if Ascii.eqb command cmd_O then "open" else "close".

(** [millis i] is the clock reading taken in iteration [i] of the loop,
    [millis (S MAX_GREENHOUSES)] the one taken for the timestamp. *)
Definition sendControlToAllNodes (millis : nat → Z)
    (wifi_connected firebase_ready : bool) (command : ascii) (w : World) : World :=
  let w := foldl (λ w i, sendControlToAllNodes_step (millis i) command w i)
                 w (seq 1 MAX_GREENHOUSES) in
  if wifi_connected && firebase_ready then
    let action := lastControlAll_action command in
    let ts := uint32_t (millis (S MAX_GREENHOUSES)) in
    let ok := rtdb_write (trace w) in
    let w := log (RtdbSetLastControlAll action ts ok) w in
    if ok then
      mkWorld (greenhouses w) (EEPROM w)
              (mkRemote (settingsDocs (RTDB w)) (Some (action, ts))) (trace w)
    else w
  else w.

(** The receive callback gets [len] bytes and reads them as a
    [SensorData]; the struct layout is the compiler's, so the size and the
    reinterpretation of the bytes are parameters. *)
Variable sizeof_SensorData : nat.
Variable as_SensorData : list Byte.byte → SensorData.

Definition onDataReceived (now : Z) (data : list Byte.byte) (w : World) : World :=
  if Nat.eqb (length data) sizeof_SensorData then
    let receivedData := as_SensorData data in
    if (nodeId receivedData <? 1) || (MAX_GREENHOUSES <? nodeId receivedData)
    then w
    else
      let nodeId := nodeId receivedData in
      mkWorld (<[nodeId := mkGreenhouseData receivedData
                             (settings (greenhouses w !!! nodeId)) true now]>
                 (greenhouses w))
              (EEPROM w) (RTDB w) (trace w)
  else w.

(** ** settings_eeprom.cpp *)

(** [EEPROM.put(addr, greenhouses[i].settings)] with
    [addr = (i-1) * sizeof(GreenhouseSettings)]: slot [i-1]. *)
Definition EEPROM_put (slot : nat) (s : GreenhouseSettings) (w : World) : World :=
  mkWorld (greenhouses w) (<[slot := s]> (EEPROM w)) (RTDB w) (trace w).

Definition saveSettingsToEEPROM (w : World) : World :=
  let w := foldl (λ w i, EEPROM_put (i - 1) (settings (greenhouses w !!! i)) w)
                 w (seq 1 MAX_GREENHOUSES) in
  log EepromCommit w.

(** One iteration of the loop of [loadSettingsFromEEPROM]. *)
Definition loadSettingsFromEEPROM_step (w : World) (i : nat) : World :=
  (* EEPROM.get(addr, greenhouses[i].settings) *)
  let w := upd_settings i (λ _, EEPROM w (i - 1)) w in
  let t := temperatureThreshold (settings (greenhouses w !!! i)) in
  let w := if isnan t || flt t (float_of_Z 0) || fgt t (float_of_Z 50)
           then upd_settings i (set_temperatureThreshold default_temperatureThreshold) w
           else w in
  let h := hysteresis (settings (greenhouses w !!! i)) in
  let w := if isnan h || flt h (float_of_Z 0) || fgt h (float_of_Z 5)
           then upd_settings i (set_hysteresis default_hysteresis) w
           else w in
  w.

Definition loadSettingsFromEEPROM (w : World) : World :=
  foldl loadSettingsFromEEPROM_step w (seq 1 MAX_GREENHOUSES).

(** ** wifi_firebase.cpp: the download loop of [syncWithFirebase] *)

(** [Firebase.RTDB.getJSON] on /greenhouses/{i}/settings together with the
    test [fbdo.dataType() == "json"]: [None] when the call fails, the
    document is absent or it is not a JSON object. *)
Definition getJSON (i : nat) (w : World) : option SettingsDoc :=
  settingsDocs (RTDB w) !! i.

Definition clear_manualControl (d : SettingsDoc) : SettingsDoc :=
  mkSettingsDoc (doc_temperatureThreshold d) (doc_hysteresis d) (doc_mode d) None.

(** [updateNode] with ["manualControl": null]; the firmware does not look
    at the outcome, the database changes only when the write gets through. *)
Definition updateNode_clear (i : nat) (w : World) : World :=
  let ok := rtdb_write (trace w) in
  let w := log (RtdbClearManualControl i ok) w in
  if ok then
    mkWorld (greenhouses w) (EEPROM w)
            (mkRemote (alter clear_manualControl i (settingsDocs (RTDB w)))
                      (lastControlAll (RTDB w)))
            (trace w)
  else w.

Definition pull_temperatureThreshold (i : nat) (doc : SettingsDoc) (w : World) : World :=
  match doc_temperatureThreshold doc with
  | Some newThreshold =>
      if fne newThreshold (temperatureThreshold (settings (greenhouses w !!! i)))
      then sendControlToNode (uint8_t i)
             (upd_settings i (set_temperatureThreshold newThreshold) w)
      else w
  | None => w
  end.

Definition pull_hysteresis (i : nat) (doc : SettingsDoc) (w : World) : World :=
  match doc_hysteresis doc with
  | Some newHysteresis =>
      if fne newHysteresis (hysteresis (settings (greenhouses w !!! i)))
      then sendControlToNode (uint8_t i)
             (upd_settings i (set_hysteresis newHysteresis) w)
      else w
  | None => w
  end.

Definition pull_mode (i : nat) (doc : SettingsDoc) (w : World) : World :=
  match doc_mode doc with
  | Some mode =>
      let newAutoMode := String.eqb mode "auto" in
      if negb (Bool.eqb newAutoMode (autoMode (settings (greenhouses w !!! i))))
      then sendControlToNode (uint8_t i)
             (upd_settings i (set_autoMode newAutoMode) w)
      else w
  | None => w
  end.

Definition manualCmd_of (command : string) : ascii :=
  if String.eqb command "open" then cmd_O
  else if String.eqb command "close" then cmd_C
  else if String.eqb command "stop" then cmd_S
  else NUL.

Definition pull_manualControl (i : nat) (doc : SettingsDoc) (w : World) : World :=
  match doc_manualControl doc with
  | Some command =>
      let manualCmd := manualCmd_of command in
      if negb (Ascii.eqb manualCmd NUL) then
        let w := upd_settings i (set_manualCommand manualCmd) w in
        let w := sendControlToNode (uint8_t i) w in
        updateNode_clear i w
      else w
  | None => w
  end.

(** The body of the download loop once the document has been fetched. *)
Definition pull_fields (i : nat) (doc : SettingsDoc) (w : World) : World :=
  pull_manualControl i doc
    (pull_mode i doc
       (pull_hysteresis i doc
          (pull_temperatureThreshold i doc w))).

Definition syncNode (i : nat) (doc : SettingsDoc) (w : World) : World :=
  saveSettingsToEEPROM (pull_fields i doc w).

Definition syncWithFirebase_download_step (w : World) (i : nat) : World :=
  match getJSON i w with
  | Some doc => syncNode i doc w
  | None => w
  end.

Definition syncWithFirebase_download (w : World) : World :=
  foldl syncWithFirebase_download_step w (seq 1 MAX_GREENHOUSES).

(** ** Vocabulary of the statements *)

(** A packet the receive callback takes in: right size, node id in 1..MAX. *)
Definition accepted (data : list Byte.byte) : Prop :=
  length data = sizeof_SensorData ∧
  1 ≤ nodeId (as_SensorData data) ≤ MAX_GREENHOUSES.

(** The callback run on a sequence of packets, each with the clock reading
    of its arrival. *)
Definition onDataReceived_all (packets : list (Z * list Byte.byte)) (w : World) : World :=
  foldl (λ w p, onDataReceived p.1 p.2 w) w packets.

(** The settings record [loadSettingsFromEEPROM] leaves in the registry
    for a stored record [s]. *)
Definition validated (s : GreenhouseSettings) : GreenhouseSettings :=
  mkGreenhouseSettings
    (if rejected (float_of_Z 50) (temperatureThreshold s)
     then default_temperatureThreshold else temperatureThreshold s)
    (if rejected (float_of_Z 5) (hysteresis s)
     then default_hysteresis else hysteresis s)
    (autoMode s) (manualCommand s) (schedule s).

(** What [sendControlToNode] transmits for record [g] of node [n] after
    the events [tr]. *)
Definition send_events (tr : list Event) (n : nat) (g : GreenhouseData) : list Event :=
  if isOnline g
  then [EspNowSend (controlMsg_of n g) (esp_now_send tr (controlMsg_of n g))]
  else [].

(** The download loop seen from the record of the node it works on. *)
Definition sent_record (g : GreenhouseData) : GreenhouseData :=
  if isOnline g then with_settings (set_manualCommand NUL) g else g.

Definition threshold_differs (doc : SettingsDoc) (s : GreenhouseSettings) : bool :=
  match doc_temperatureThreshold doc with
  | Some v => fne v (temperatureThreshold s)
  | None => false
  end.

Definition hysteresis_differs (doc : SettingsDoc) (s : GreenhouseSettings) : bool :=
  match doc_hysteresis doc with
  | Some v => fne v (hysteresis s)
  | None => false
  end.

Definition mode_differs (doc : SettingsDoc) (s : GreenhouseSettings) : bool :=
  match doc_mode doc with
  | Some mode => negb (Bool.eqb (String.eqb mode "auto") (autoMode s))
  | None => false
  end.

Definition manual_given (doc : SettingsDoc) : bool :=
  match doc_manualControl doc with
  | Some command => negb (Ascii.eqb (manualCmd_of command) NUL)
  | None => false
  end.

(** How many of the four fields make the loop call [sendControlToNode]. *)
Definition changed_fields (doc : SettingsDoc) (s : GreenhouseSettings) : nat :=
  Nat.b2n (threshold_differs doc s) + Nat.b2n (hysteresis_differs doc s)
  + Nat.b2n (mode_differs doc s) + Nat.b2n (manual_given doc).

Definition pulled_temperatureThreshold (doc : SettingsDoc) (g : GreenhouseData) :=
  match doc_temperatureThreshold doc with
  | Some v => if fne v (temperatureThreshold (settings g))
              then sent_record (with_settings (set_temperatureThreshold v) g) else g
  | None => g
  end.

Definition pulled_hysteresis (doc : SettingsDoc) (g : GreenhouseData) :=
  match doc_hysteresis doc with
  | Some v => if fne v (hysteresis (settings g))
              then sent_record (with_settings (set_hysteresis v) g) else g
  | None => g
  end.

Definition pulled_mode (doc : SettingsDoc) (g : GreenhouseData) :=
  match doc_mode doc with
  | Some mode =>
      if negb (Bool.eqb (String.eqb mode "auto") (autoMode (settings g)))
      then sent_record (with_settings (set_autoMode (String.eqb mode "auto")) g) else g
  | None => g
  end.

Definition pulled_manualControl (doc : SettingsDoc) (g : GreenhouseData) :=
  match doc_manualControl doc with
  | Some command =>
      if negb (Ascii.eqb (manualCmd_of command) NUL)
      then sent_record (with_settings (set_manualCommand (manualCmd_of command)) g) else g
  | None => g
  end.

Definition pulled_record (doc : SettingsDoc) (g : GreenhouseData) : GreenhouseData :=
  pulled_manualControl doc
    (pulled_mode doc (pulled_hysteresis doc (pulled_temperatureThreshold doc g))).

(** A stretch of trace with [n] transmissions, all of them naming node
    [i], and no flash commit. *)
Definition counts (i n : nat) (evs : list Event) : Prop :=
  sends_to i evs = n ∧ sends evs = n ∧ commits evs = 0.

(** [w'] is [w] with record [i] replaced by [g'] and a stretch of trace
    with [n] transmissions to node [i] appended; the other records and the
    flash are as before. *)
Definition node_step (i : nat) (g' : GreenhouseData) (n : nat) (w w' : World) : Prop :=
  greenhouses w' !!! i = g' ∧
  (∀ j, i ≠ j → greenhouses w' !!! j = greenhouses w !!! j) ∧
  length (greenhouses w') = length (greenhouses w) ∧
  (∃ evs, trace w' = trace w ++ evs ∧ counts i n evs) ∧
  EEPROM w' = EEPROM w.

(** ** wifi_firebase.cpp: the upload loop and [syncWithFirebase] *)

(** Whether the two [setJSON] calls for node [i] get through, and the
    float that [result.to<float>()] reads back from the JSON text that
    [json.set] printed for a float (the text has as many digits as
    FirebaseJson is set to print). *)
Variable setJSON_ok : nat → bool * bool.
Variable json_float : float → float.

(** What the download loop reads from a settings object stored by
    [setJSON]: [setJSON] replaces the whole node at the path, so the keys of
    the object are the fields of the document.  The value kinds are those the
    upload loop writes. *)
Definition doc_of_json (json : FirebaseJson) : SettingsDoc :=
  mkSettingsDoc
    (match json_get "temperatureThreshold" json with
     | Some (JFloat x) => Some (json_float x) | _ => None end)
    (match json_get "hysteresis" json with
     | Some (JFloat x) => Some (json_float x) | _ => None end)
    (match json_get "mode" json with
     | Some (JString s) => Some s | _ => None end)
    (match json_get "manualControl" json with
     | Some (JString s) => Some s | _ => None end).

(** One iteration of the upload loop; [now] is the reading of [millis()]
    in it.  The outcome of the first write is only printed. *)
Definition upload_step (now : Z) (acc : list UploadWrite * World) (i : nat)
    : list UploadWrite * World :=
  let g := greenhouses acc.2 !!! i in
  if isOnline g && (ulong_sub now (lastSeen g) <? 300000)%Z then
    let json := currentData_json (sensor g) in
    let settingsJson := settings_json g in
    let w := acc.2 in
    let w := if (setJSON_ok i).2
             then mkWorld (greenhouses w) (EEPROM w)
                    (mkRemote (<[i := doc_of_json settingsJson]> (settingsDocs (RTDB w)))
                              (lastControlAll (RTDB w)))
                    (trace w)
             else w in
    (acc.1 ++ [SetCurrentData i json (setJSON_ok i).1;
               SetSettings i settingsJson (setJSON_ok i).2], w)
  else acc.

Definition syncWithFirebase_upload (millis : nat → Z) (w : World)
    : list UploadWrite * World :=
  foldl (λ acc i, upload_step (millis i) acc i) ([], w) (seq 1 MAX_GREENHOUSES).

(** [ready] is [Firebase.ready()]. *)
Definition syncWithFirebase (ready : bool) (millis : nat → Z) (w : World)
    : list UploadWrite * World :=
  if negb ready then ([], w)
  else
    let up := syncWithFirebase_upload millis w in
    (up.1, syncWithFirebase_download up.2).

(** The writes of the upload loop for node [i] with record [g]. *)
Definition node_writes (now : Z) (i : nat) (g : GreenhouseData) : list UploadWrite :=
  if isLive now g
  then [SetCurrentData i (currentData_json (sensor g)) (setJSON_ok i).1;
        SetSettings i (settings_json g) (setJSON_ok i).2]
  else [].

(** * Properties *)

(** ** The registry under single-field assignments *)

Lemma length_upd_settings i f w :
  length (greenhouses (upd_settings i f w)) = length (greenhouses w).
Proof. unfold upd_settings; simpl. apply length_insert. Qed.

Lemma lookup_upd_settings_eq i f w :
  i < length (greenhouses w) →
  greenhouses (upd_settings i f w) !!! i = with_settings f (greenhouses w !!! i).
Proof. intros Hi. unfold upd_settings; simpl. by rewrite list_lookup_total_insert_eq. Qed.

Lemma lookup_upd_settings_ne i j f w :
  i ≠ j → greenhouses (upd_settings i f w) !!! j = greenhouses w !!! j.
Proof. intros Hij. unfold upd_settings; simpl. by rewrite list_lookup_total_insert_ne. Qed.

(** An assignment to a settings field never changes [isOnline]. *)
Lemma isOnline_upd_settings i j f w :
  isOnline (greenhouses (upd_settings i f w) !!! j) = isOnline (greenhouses w !!! j).
Proof.
  destruct (decide (i = j)) as [->|Hij]; [|by rewrite lookup_upd_settings_ne].
  destruct (decide (j < length (greenhouses w))) as [Hj|Hj].
  - by rewrite lookup_upd_settings_eq.
  - unfold upd_settings; simpl. rewrite list_insert_ge; [done|lia].
Qed.

(** ** [sendControlToNode] *)

Lemma sendControlToNode_offline n w :
  isOnline (greenhouses w !!! n) = false → sendControlToNode n w = w.
Proof. intros H. unfold sendControlToNode. by rewrite H. Qed.

Lemma sendControlToNode_online n w :
  isOnline (greenhouses w !!! n) = true →
  sendControlToNode n w =
    upd_settings n (set_manualCommand NUL)
      (log (EspNowSend (controlMsg_of n (greenhouses w !!! n))
                       (esp_now_send (trace w) (controlMsg_of n (greenhouses w !!! n)))) w).
Proof. intros H. unfold sendControlToNode. by rewrite H. Qed.

Lemma length_sendControlToNode n w :
  length (greenhouses (sendControlToNode n w)) = length (greenhouses w).
Proof.
  destruct (isOnline (greenhouses w !!! n)) eqn:H.
  - rewrite sendControlToNode_online by done. by rewrite length_upd_settings.
  - by rewrite sendControlToNode_offline.
Qed.

Lemma lookup_sendControlToNode_ne n j w :
  n ≠ j → greenhouses (sendControlToNode n w) !!! j = greenhouses w !!! j.
Proof.
  intros Hnj. destruct (isOnline (greenhouses w !!! n)) eqn:H.
  - rewrite sendControlToNode_online by done. by rewrite lookup_upd_settings_ne.
  - by rewrite sendControlToNode_offline.
Qed.

Lemma lookup_sendControlToNode_eq n w :
  n < length (greenhouses w) →
  greenhouses (sendControlToNode n w) !!! n =
    if isOnline (greenhouses w !!! n)
    then with_settings (set_manualCommand NUL) (greenhouses w !!! n)
    else greenhouses w !!! n.
Proof.
  intros Hn. destruct (isOnline (greenhouses w !!! n)) eqn:H.
  - rewrite sendControlToNode_online by done. by rewrite lookup_upd_settings_eq.
  - by rewrite sendControlToNode_offline.
Qed.

Lemma trace_sendControlToNode n w :
  trace (sendControlToNode n w) =
    trace w ++
    if isOnline (greenhouses w !!! n)
    then [EspNowSend (controlMsg_of n (greenhouses w !!! n))
                     (esp_now_send (trace w) (controlMsg_of n (greenhouses w !!! n)))]
    else [].
Proof.
  destruct (isOnline (greenhouses w !!! n)) eqn:H.
  - by rewrite sendControlToNode_online.
  - rewrite sendControlToNode_offline by done. by rewrite app_nil_r.
Qed.

Lemma sends_app tr1 tr2 : sends (tr1 ++ tr2) = sends tr1 + sends tr2.
Proof. unfold sends. by rewrite List.filter_app, length_app. Qed.

Lemma sends_to_app i tr1 tr2 : sends_to i (tr1 ++ tr2) = sends_to i tr1 + sends_to i tr2.
Proof. unfold sends_to. by rewrite List.filter_app, length_app. Qed.

Lemma commits_app tr1 tr2 : commits (tr1 ++ tr2) = commits tr1 + commits tr2.
Proof. unfold commits. by rewrite List.filter_app, length_app. Qed.

(** C1 (as amended).  After [sendControlToNode nodeId], for an index inside
    the array: if the node's [isOnline] flag is set, [manualCommand] is 0
    whatever [esp_now_send] returned; if the flag is clear the function
    returns before the assignment and [manualCommand] keeps its value. *)
Theorem sendControlToNode_manualCommand (nodeId : nat) (w : World) :
  nodeId < length (greenhouses w) →
  manualCommand (settings (greenhouses (sendControlToNode nodeId w) !!! nodeId)) =
    if isOnline (greenhouses w !!! nodeId) then NUL
    else manualCommand (settings (greenhouses w !!! nodeId)).
Proof.
  intros Hn. rewrite lookup_sendControlToNode_eq by done.
  by destruct (isOnline (greenhouses w !!! nodeId)).
Qed.

(** C2 (as amended).  [sendControlToNode] tests [isOnline] only: with the
    flag clear it changes nothing and transmits nothing; with the flag set
    it transmits exactly one message whatever [lastSeen] is. *)
Theorem sendControlToNode_gate (nodeId : nat) (w : World) :
  (isOnline (greenhouses w !!! nodeId) = false → sendControlToNode nodeId w = w) ∧
  (isOnline (greenhouses w !!! nodeId) = true →
   ∃ ok, trace (sendControlToNode nodeId w) =
           trace w ++ [EspNowSend (controlMsg_of nodeId (greenhouses w !!! nodeId)) ok] ∧
         sends (trace (sendControlToNode nodeId w)) = S (sends (trace w))).
Proof.
  split; [apply sendControlToNode_offline|].
  intros H. eexists. rewrite trace_sendControlToNode, H. split; [done|].
  rewrite sends_app. unfold sends at 2. simpl. lia.
Qed.

(** ** Loops over the node indices *)

Lemma foldl_preserves {A} (proj : World → A) (step : World → nat → World) :
  (∀ w i, proj (step w i) = proj w) →
  ∀ l w, proj (foldl step w l) = proj w.
Proof.
  intros Hstep l. induction l as [|i l IH]; intros w; simpl; [done|].
  by rewrite IH, Hstep.
Qed.

Section FoldSeq.
Variable step : World → nat → World.
Variable inside : nat → Prop.
Hypothesis step_frame :
  ∀ w i j, inside i → i ≠ j → greenhouses (step w i) !!! j = greenhouses w !!! j.

(** A loop over [a .. a+n-1] whose iteration [i] writes record [i] only
    leaves every record outside that range alone. *)
Lemma foldl_seq_frame n : ∀ a w j,
  (∀ i, a ≤ i < a + n → inside i) →
  ¬ (a ≤ j < a + n) →
  greenhouses (foldl step w (seq a n)) !!! j = greenhouses w !!! j.
Proof.
  induction n as [|n IH]; intros a w j Hin Hj; simpl; [done|].
  rewrite IH; [|intros; apply Hin; lia|lia]. apply step_frame; [apply Hin|]; lia.
Qed.

(** Record [j] after the loop is the one iteration [j] produced, and
    iteration [j] started from the record the loop was entered with. *)
Lemma foldl_seq_at n a w j :
  (∀ i, a ≤ i < a + n → inside i) →
  a ≤ j < a + n →
  let wj := foldl step w (seq a (j - a)) in
  greenhouses wj !!! j = greenhouses w !!! j ∧
  greenhouses (foldl step w (seq a n)) !!! j = greenhouses (step wj j) !!! j.
Proof.
  intros Hin Hj wj. split.
  - apply foldl_seq_frame; [intros; apply Hin|]; lia.
  - replace n with ((j - a) + S (n - S (j - a))) at 1 by lia.
    rewrite seq_app, foldl_app. replace (a + (j - a)) with j by lia.
    simpl. apply foldl_seq_frame; [intros; apply Hin|]; lia.
Qed.
End FoldSeq.

(** ** [sendControlToAllNodes] *)

Lemma uint8_t_small i : i < 256 → uint8_t i = i.
Proof. intros Hi. unfold uint8_t. by apply Nat.mod_small. Qed.

Lemma sendControlToAllNodes_step_frame now command w i j :
  i < 256 → i ≠ j →
  greenhouses (sendControlToAllNodes_step now command w i) !!! j = greenhouses w !!! j.
Proof.
  intros Hi Hij. unfold sendControlToAllNodes_step.
  destruct (negb _ || _); [done|]. rewrite uint8_t_small by done.
  rewrite lookup_sendControlToNode_ne by done.
  destruct (Ascii.eqb command cmd_O || Ascii.eqb command cmd_C);
    by rewrite ?lookup_upd_settings_ne.
Qed.

Lemma sendControlToAllNodes_step_skip now command w i :
  negb (isOnline (greenhouses w !!! i))
    || (300000 <? ulong_sub now (lastSeen (greenhouses w !!! i)))%Z = true →
  sendControlToAllNodes_step now command w i = w.
Proof. intros H. unfold sendControlToAllNodes_step. by rewrite H. Qed.

(** What one iteration does to a node it does not skip: the message on
    the air carries [command] (and [autoMode = false] for 'O' and 'C'), the
    record ends with [manualCommand = 0]. *)
Lemma sendControlToAllNodes_step_live now command w i :
  i < 256 → i < length (greenhouses w) →
  negb (isOnline (greenhouses w !!! i))
    || (300000 <? ulong_sub now (lastSeen (greenhouses w !!! i)))%Z = false →
  let g := greenhouses w !!! i in
  let auto := if Ascii.eqb command cmd_O || Ascii.eqb command cmd_C
              then false else autoMode (settings g) in
  let w' := sendControlToAllNodes_step now command w i in
  greenhouses w' !!! i =
    with_settings (λ s, set_manualCommand NUL (set_autoMode auto s)) g ∧
  ∃ ok, trace w' =
    trace w ++ [EspNowSend (mkControlMessage i (temperatureThreshold (settings g))
                              (hysteresis (settings g)) auto command) ok].
Proof.
  intros Hi Hlen Hlive. cbv zeta. unfold sendControlToAllNodes_step.
  rewrite Hlive. rewrite uint8_t_small by done.
  apply orb_false_iff in Hlive as [Hon _]. apply negb_false_iff in Hon.
  set (g := greenhouses w !!! i) in *.
  set (auto := if Ascii.eqb command cmd_O || Ascii.eqb command cmd_C
               then false else autoMode (settings g)).
  set (w2 := if Ascii.eqb command cmd_O || Ascii.eqb command cmd_C
             then upd_settings i (set_autoMode false)
                    (upd_settings i (set_manualCommand command) w)
             else upd_settings i (set_manualCommand command) w).
  assert (Hlen2 : i < length (greenhouses w2)).
  { subst w2. destruct (_ || _); by rewrite ?length_upd_settings. }
  assert (Hg2 : greenhouses w2 !!! i =
                with_settings (λ s, set_manualCommand command (set_autoMode auto s)) g).
  { subst w2 auto. destruct (Ascii.eqb command cmd_O || Ascii.eqb command cmd_C).
    - rewrite !lookup_upd_settings_eq; rewrite ?length_upd_settings; done.
    - rewrite lookup_upd_settings_eq by done. fold g. by destruct g as [? [] ? ?]. }
  assert (Htr2 : trace w2 = trace w).
  { subst w2. by destruct (_ || _). }
  split.
  - rewrite lookup_sendControlToNode_eq by done. rewrite Hg2. simpl. by rewrite Hon.
  - eexists. rewrite trace_sendControlToNode, Hg2, Htr2. simpl. rewrite Hon. done.
Qed.

Lemma sendControlToAllNodes_greenhouses millis wifi ready command w :
  greenhouses (sendControlToAllNodes millis wifi ready command w) =
  greenhouses (foldl (λ w i, sendControlToAllNodes_step (millis i) command w i)
                     w (seq 1 MAX_GREENHOUSES)).
Proof.
  unfold sendControlToAllNodes. destruct (wifi && ready); [|done].
  simpl. by destruct (rtdb_write _).
Qed.

(** The loop of [sendControlToAllNodes], node by node: a node is passed
    over exactly when [!isOnline || millis() - lastSeen > 300000] and keeps
    its record then; otherwise it ends with [manualCommand = 0] (the command
    has been sent) and, for 'O' and 'C', [autoMode = false]. *)
Lemma sendControlToAllNodes_records millis wifi ready command w i :
  MAX_GREENHOUSES < 256 → length (greenhouses w) = S MAX_GREENHOUSES →
  1 ≤ i ≤ MAX_GREENHOUSES →
  let g := greenhouses w !!! i in
  greenhouses (sendControlToAllNodes millis wifi ready command w) !!! i =
    if negb (isOnline g) || (300000 <? ulong_sub (millis i) (lastSeen g))%Z then g
    else with_settings
           (λ s, set_manualCommand NUL
                   (set_autoMode (if Ascii.eqb command cmd_O || Ascii.eqb command cmd_C
                                  then false else autoMode s) s)) g.
Proof.
  intros Hmax Hlen Hi g. rewrite sendControlToAllNodes_greenhouses.
  set (step := λ w i, sendControlToAllNodes_step (millis i) command w i).
  assert (Hframe : ∀ w i j, 1 ≤ i ≤ MAX_GREENHOUSES → i ≠ j →
            greenhouses (step w i) !!! j = greenhouses w !!! j).
  { intros. apply sendControlToAllNodes_step_frame; [lia|done]. }
  assert (Hlenstep : ∀ l w, length (greenhouses (foldl step w l)) = length (greenhouses w)).
  { apply (foldl_preserves (λ w, length (greenhouses w))). intros w0 k. subst step. simpl.
    unfold sendControlToAllNodes_step. destruct (negb _ || _); [done|].
    rewrite length_sendControlToNode.
    destruct (Ascii.eqb command cmd_O || Ascii.eqb command cmd_C);
      by rewrite ?length_upd_settings. }
  destruct (foldl_seq_at step _ Hframe MAX_GREENHOUSES 1 w i) as [Hgi ->];
    [intros; lia|lia|].
  set (wi := foldl step w (seq 1 (i - 1))) in *.
  assert (Hleni : i < length (greenhouses wi)) by (subst wi; rewrite Hlenstep; lia).
  fold g in Hgi. subst step. cbv beta.
  destruct (negb (isOnline g) || (300000 <? ulong_sub (millis i) (lastSeen g))%Z) eqn:Hskip.
  - rewrite sendControlToAllNodes_step_skip; [done|]. by rewrite Hgi.
  - destruct (sendControlToAllNodes_step_live (millis i) command wi i) as [Hrec _];
      [lia|done|by rewrite Hgi|]. rewrite Hrec, Hgi. done.
Qed.

Lemma RTDB_sendControlToNode n w : RTDB (sendControlToNode n w) = RTDB w.
Proof.
  destruct (isOnline (greenhouses w !!! n)) eqn:H.
  - by rewrite sendControlToNode_online.
  - by rewrite sendControlToNode_offline.
Qed.



(** ** [onDataReceived] *)

Lemma length_onDataReceived now data w :
  length (greenhouses (onDataReceived now data w)) = length (greenhouses w).
Proof.
  unfold onDataReceived. destruct (Nat.eqb _ _); [|done].
  destruct (_ || _); [done|]. simpl. apply length_insert.
Qed.

Lemma onDataReceived_frame now data w j :
  j ≠ nodeId (as_SensorData data) →
  greenhouses (onDataReceived now data w) !!! j = greenhouses w !!! j.
Proof.
  intros Hj. unfold onDataReceived. destruct (Nat.eqb _ _); [|done].
  destruct (_ || _); [done|]. simpl. by rewrite list_lookup_total_insert_ne.
Qed.

Lemma onDataReceived_accepted now data w :
  accepted data →
  nodeId (as_SensorData data) < length (greenhouses w) →
  greenhouses (onDataReceived now data w) !!! nodeId (as_SensorData data) =
    mkGreenhouseData (as_SensorData data)
      (settings (greenhouses w !!! nodeId (as_SensorData data))) true now.
Proof.
  intros [Hlen Hid] Hin. unfold onDataReceived.
  rewrite (proj2 (Nat.eqb_eq _ _) Hlen).
  replace (nodeId (as_SensorData data) <? 1) with false
    by (symmetry; apply Nat.ltb_ge; lia).
  replace (MAX_GREENHOUSES <? nodeId (as_SensorData data)) with false
    by (symmetry; apply Nat.ltb_ge; lia).
  simpl. by rewrite list_lookup_total_insert_eq.
Qed.

(** Once slot [i] holds a snapshot that names [i], it does so after any
    further packet. *)
Lemma onDataReceived_keeps_nodeId now data w i :
  nodeId (sensor (greenhouses w !!! i)) = i →
  nodeId (sensor (greenhouses (onDataReceived now data w) !!! i)) = i.
Proof.
  intros Hi. destruct (decide (i = nodeId (as_SensorData data))) as [Heq|Hne];
    [|by rewrite onDataReceived_frame].
  unfold onDataReceived. destruct (Nat.eqb _ _); [|done].
  destruct (_ || _); [done|]. simpl.
  destruct (decide (i < length (greenhouses w))) as [Hlt|Hge].
  - rewrite <- Heq. rewrite list_lookup_total_insert_eq by done. simpl. done.
  - rewrite list_insert_ge by lia. done.
Qed.

(** C9.  The receive callback writes only the slot named by the packet:
    every other record is unchanged; the slot of an accepted packet holds
    that packet's snapshot; and after any sequence of packets, every slot
    [i] that took in at least one accepted packet holds a snapshot whose
    [nodeId] is [i]. *)
Theorem onDataReceived_slot_is_nodeId (w : World) :
  length (greenhouses w) = S MAX_GREENHOUSES →
  (∀ now data j,
     j ≠ nodeId (as_SensorData data) →
     greenhouses (onDataReceived now data w) !!! j = greenhouses w !!! j) ∧
  (∀ now data,
     accepted data →
     sensor (greenhouses (onDataReceived now data w) !!! nodeId (as_SensorData data))
       = as_SensorData data) ∧
  (∀ packets i,
     Exists (λ p, accepted p.2 ∧ nodeId (as_SensorData p.2) = i) packets →
     nodeId (sensor (greenhouses (onDataReceived_all packets w) !!! i)) = i).
Proof.
  intros Hlen. split; [|split].
  - intros. by apply onDataReceived_frame.
  - intros now data Hacc. rewrite onDataReceived_accepted; [done|done|].
    destruct Hacc as [_ ?]. lia.
  - intros packets. revert w Hlen. unfold onDataReceived_all.
    assert (Hkeep : ∀ l w0 i, nodeId (sensor (greenhouses w0 !!! i)) = i →
      nodeId (sensor (greenhouses
        (foldl (λ w p, onDataReceived p.1 p.2 w) w0 l) !!! i)) = i).
    { induction l as [|p l IH]; intros w0 i Hi; simpl; [done|].
      apply IH. by apply onDataReceived_keeps_nodeId. }
    induction packets as [|p packets IH]; intros w Hlen i Hex.
    + by apply Exists_nil in Hex.
    + simpl. apply Exists_cons in Hex as [[Hacc Hid]|Hex].
      * apply Hkeep. subst i. rewrite onDataReceived_accepted; [done|done|].
        destruct Hacc as [_ ?]. lia.
      * apply IH; [|done]. by rewrite length_onDataReceived.
Qed.

(** ** Floats against a finite positive bound *)

Lemma digits2_pos_bound (m : positive) : (Zpos m < 2 ^ Zpos (digits2_pos m))%Z.
Proof.
  induction m as [m IH|m IH|]; simpl digits2_pos.
  - rewrite Pos2Z.inj_succ, Z.pow_succ_r by lia. lia.
  - rewrite Pos2Z.inj_succ, Z.pow_succ_r by lia. lia.
  - simpl. lia.
Qed.

(** The mantissa of a well-formed binary32 number has at most 24 bits. *)
Lemma valid_binary_mantissa s m e :
  valid_binary prec emax (S754_finite s m e) = true → (Zpos m < 2 ^ 24)%Z.
Proof.
  simpl. unfold bounded, canonical_mantissa, fexp, emin, prec, emax.
  intros H. apply andb_true_iff in H as [H _]. apply Z.eqb_eq in H.
  assert (Hd : (Zpos (digits2_pos m) <= 24)%Z) by lia.
  pose proof (digits2_pos_bound m) as Hm.
  assert ((2 ^ Zpos (digits2_pos m) <= 2 ^ 24)%Z) by (apply Z.pow_le_mono_r; lia).
  lia.
Qed.

(** The comparison of two positive floats agrees with the order of the
    numbers they stand for, when the right-hand one is normalised. *)
Lemma F2Q_le_bound (mb : positive) (eb : Z) (m : positive) (e : Z) :
  (2 ^ 23 <= Zpos mb)%Z → (Zpos m < 2 ^ 24)%Z →
  SFltb (S754_finite false mb eb) (S754_finite false m e) = false →
  (F2Q (S754_finite false m e) <= F2Q (S754_finite false mb eb))%Q.
Proof.
  intros Hmb Hm Hlt. unfold SFltb, SFcompare in Hlt. unfold F2Q, cond_Zopp.
  change (Pos.compare_cont Eq mb m) with (Pos.compare mb m) in Hlt.
  destruct (Z.compare_spec eb e) as [Heq|Hl|Hg]; [|done|].
  - subst e. apply Qmult_le_compat_r; [|apply Qpower_0_le; done].
    rewrite <- Zle_Qle.
    destruct (Pos.compare_spec mb m) as [->|Hl|Hg]; [lia|done|lia].
  - apply Qle_trans with (inject_Z (2 ^ 24) * 2 ^ (eb - 1))%Q.
    + apply Qle_trans with (inject_Z (2 ^ 24) * 2 ^ e)%Q.
      * apply Qmult_le_compat_r; [|apply Qpower_0_le; done].
        rewrite <- Zle_Qle. lia.
      * apply Qmult_le_l; [done|]. apply Qpower_le_compat_l; [lia|done].
    + replace eb with ((eb - 1) + 1)%Z at 2 by lia.
      rewrite Qpower_plus by done.
      rewrite (Qmult_comm (2 ^ (eb - 1)) (2 ^ 1)), Qmult_assoc.
      apply Qmult_le_compat_r; [|apply Qpower_0_le; done].
      change (2 ^ 1)%Q with (inject_Z 2). rewrite <- inject_Z_mult, <- Zle_Qle. lia.
Qed.

(** A value that passes the load-time test is a number. *)
Lemma rejected_false_finite mb eb x :
  rejected (S754_finite false mb eb) x = false → is_finite x = true.
Proof. destruct x as [[]|[]| |[] m e]; done. Qed.

(** ... and, if it is a well-formed binary32, it lies between 0 and the bound. *)
Lemma rejected_false_range mb eb x :
  (2 ^ 23 <= Zpos mb)%Z →
  valid_binary prec emax x = true →
  rejected (S754_finite false mb eb) x = false →
  (0 <= F2Q x)%Q ∧ (F2Q x <= F2Q (S754_finite false mb eb))%Q.
Proof.
  intros Hmb Hvalid Hrej.
  assert (Hpos : (0 <= F2Q (S754_finite false mb eb))%Q).
  { unfold F2Q, cond_Zopp. apply Qmult_le_0_compat; [|apply Qpower_0_le; done].
    change 0%Q with (inject_Z 0). rewrite <- Zle_Qle. lia. }
  destruct x as [[]|[]| |[] m e]; try done.
  split.
  - unfold F2Q, cond_Zopp. apply Qmult_le_0_compat; [|apply Qpower_0_le; done].
    change 0%Q with (inject_Z 0). rewrite <- Zle_Qle. lia.
  - apply F2Q_le_bound; [done|by eapply valid_binary_mantissa|].
    unfold rejected in Hrej. apply orb_false_iff in Hrej as [_ Hrej]. exact Hrej.
Qed.

(** ** [loadSettingsFromEEPROM] *)

Lemma loadSettingsFromEEPROM_step_frame w i j :
  i ≠ j → greenhouses (loadSettingsFromEEPROM_step w i) !!! j = greenhouses w !!! j.
Proof.
  intros Hij. unfold loadSettingsFromEEPROM_step.
  repeat (match goal with |- context [if ?c then _ else _] => destruct c end);
    by rewrite ?lookup_upd_settings_ne.
Qed.

Lemma length_loadSettingsFromEEPROM_step w i :
  length (greenhouses (loadSettingsFromEEPROM_step w i)) = length (greenhouses w).
Proof.
  unfold loadSettingsFromEEPROM_step.
  repeat (match goal with |- context [if ?c then _ else _] => destruct c end);
    by rewrite ?length_upd_settings.
Qed.

Lemma EEPROM_loadSettingsFromEEPROM_step w i :
  EEPROM (loadSettingsFromEEPROM_step w i) = EEPROM w.
Proof.
  unfold loadSettingsFromEEPROM_step.
  repeat (match goal with |- context [if ?c then _ else _] => destruct c end); done.
Qed.

Lemma loadSettingsFromEEPROM_step_at w i :
  i < length (greenhouses w) →
  greenhouses (loadSettingsFromEEPROM_step w i) !!! i =
    with_settings (λ _, validated (EEPROM w (i - 1))) (greenhouses w !!! i).
Proof.
  intros Hi. unfold loadSettingsFromEEPROM_step, validated. cbv zeta.
  set (stored := EEPROM w (i - 1)).
  set (w1 := upd_settings i (λ _, stored) w).
  assert (H1 : greenhouses w1 !!! i = with_settings (λ _, stored) (greenhouses w !!! i))
    by (by apply lookup_upd_settings_eq).
  assert (Hl1 : i < length (greenhouses w1))
    by (subst w1; by rewrite length_upd_settings).
  rewrite H1. cbn [with_settings settings].
  fold (rejected (float_of_Z 50) (temperatureThreshold stored)).
  set (w2 := if rejected (float_of_Z 50) (temperatureThreshold stored)
             then upd_settings i (set_temperatureThreshold default_temperatureThreshold) w1
             else w1).
  assert (H2 : greenhouses w2 !!! i =
    with_settings (λ _, mkGreenhouseSettings
        (if rejected (float_of_Z 50) (temperatureThreshold stored)
         then default_temperatureThreshold else temperatureThreshold stored)
        (hysteresis stored) (autoMode stored) (manualCommand stored) (schedule stored))
      (greenhouses w !!! i)).
  { subst w2. destruct (rejected (float_of_Z 50) (temperatureThreshold stored)).
    - rewrite lookup_upd_settings_eq by done. by rewrite H1.
    - rewrite H1. by destruct stored. }
  assert (Hl2 : i < length (greenhouses w2)).
  { subst w2. destruct (rejected _ _); by rewrite ?length_upd_settings. }
  rewrite H2. cbn [with_settings settings hysteresis].
  fold (rejected (float_of_Z 5) (hysteresis stored)).
  destruct (rejected (float_of_Z 5) (hysteresis stored)).
  - rewrite lookup_upd_settings_eq by done. by rewrite H2.
  - by rewrite H2.
Qed.

Lemma loadSettingsFromEEPROM_at w i :
  1 ≤ i ≤ MAX_GREENHOUSES → i < length (greenhouses w) →
  greenhouses (loadSettingsFromEEPROM w) !!! i =
    with_settings (λ _, validated (EEPROM w (i - 1))) (greenhouses w !!! i).
Proof.
  intros Hi Hlen. unfold loadSettingsFromEEPROM.
  destruct (foldl_seq_at loadSettingsFromEEPROM_step (λ _, True)
              (λ w i j _, loadSettingsFromEEPROM_step_frame w i j)
              MAX_GREENHOUSES 1 w i) as [Hgi ->]; [done|lia|].
  rewrite loadSettingsFromEEPROM_step_at.
  - rewrite Hgi. f_equal.
    by rewrite (foldl_preserves EEPROM _ EEPROM_loadSettingsFromEEPROM_step).
  - by rewrite (foldl_preserves (λ w, length (greenhouses w)) _
                  length_loadSettingsFromEEPROM_step).
Qed.

Lemma float_of_Z_50 : float_of_Z 50 = S754_finite false 13107200 (-18).
Proof. reflexivity. Qed.

Lemma float_of_Z_5 : float_of_Z 5 = S754_finite false 10485760 (-21).
Proof. reflexivity. Qed.

(** The constants stand for the numbers the source writes. *)
Lemma F2Q_constants :
  (F2Q (float_of_Z 50) == 50)%Q ∧ (F2Q (float_of_Z 5) == 5)%Q ∧
  (F2Q default_temperatureThreshold == 25)%Q ∧ (F2Q default_hysteresis == 1 # 2)%Q ∧
  (F2Q (float_of_Z 999) == 999)%Q.
Proof. repeat split; vm_compute; reflexivity. Qed.

(** What the load-time test lets through is a number between 0 and the bound;
    [hi] is 50 or 5, [d] the default that replaces a rejected value. *)
Lemma load_field_range (bound : float) (mb : positive) (eb : Z) (hi : Q) (d x : float) :
  bound = S754_finite false mb eb → (2 ^ 23 <= Zpos mb)%Z →
  (F2Q bound <= hi)%Q →
  rejected bound d = false → valid_binary prec emax d = true →
  let y := if rejected bound x then d else x in
  is_finite y = true ∧ rejected bound y = false ∧
  (valid_binary prec emax x = true → (0 <= F2Q y)%Q ∧ (F2Q y <= hi)%Q).
Proof.
  intros -> Hmb Hhi Hd Hdv y. subst y.
  destruct (rejected (S754_finite false mb eb) x) eqn:Hx.
  - split; [by eapply rejected_false_finite|]. split; [done|]. intros _.
    destruct (rejected_false_range mb eb d Hmb Hdv Hd) as [H0 H1].
    split; [done|]. by eapply Qle_trans.
  - split; [by eapply rejected_false_finite|]. split; [done|]. intros Hxv.
    destruct (rejected_false_range mb eb x Hmb Hxv Hx) as [H0 H1].
    split; [done|]. by eapply Qle_trans.
Qed.

(** C7.  After [loadSettingsFromEEPROM], for every node 1..MAX: the
    threshold is the stored one if it passes [!isnan && !(x < 0) && !(x > 50)]
    and 25.0 otherwise, the hysteresis is the stored one if it passes the
    same test with 5 and 0.5 otherwise; either way the loaded value is
    finite, passes the test, and (the stored bits being a binary32 number)
    lies in [0,50], respectively [0,5]. *)
Theorem loadSettingsFromEEPROM_validates (w : World) (i : nat) :
  length (greenhouses w) = S MAX_GREENHOUSES → 1 ≤ i ≤ MAX_GREENHOUSES →
  let stored := EEPROM w (i - 1) in
  let s := settings (greenhouses (loadSettingsFromEEPROM w) !!! i) in
  temperatureThreshold s =
    (if rejected (float_of_Z 50) (temperatureThreshold stored)
     then default_temperatureThreshold else temperatureThreshold stored) ∧
  hysteresis s =
    (if rejected (float_of_Z 5) (hysteresis stored)
     then default_hysteresis else hysteresis stored) ∧
  (is_finite (temperatureThreshold s) = true ∧
   rejected (float_of_Z 50) (temperatureThreshold s) = false ∧
   (valid_binary prec emax (temperatureThreshold stored) = true →
    (0 <= F2Q (temperatureThreshold s))%Q ∧ (F2Q (temperatureThreshold s) <= 50)%Q)) ∧
  (is_finite (hysteresis s) = true ∧
   rejected (float_of_Z 5) (hysteresis s) = false ∧
   (valid_binary prec emax (hysteresis stored) = true →
    (0 <= F2Q (hysteresis s))%Q ∧ (F2Q (hysteresis s) <= 5)%Q)).
Proof.
  intros Hlen Hi. cbv zeta. rewrite loadSettingsFromEEPROM_at by lia.
  cbn [with_settings settings validated temperatureThreshold hysteresis].
  split; [done|]. split; [done|]. split.
  - apply (load_field_range _ _ _ 50%Q _ _ float_of_Z_50); [lia| |done|done].
    vm_compute. discriminate.
  - apply (load_field_range _ _ _ 5%Q _ _ float_of_Z_5); [lia| |done|done].
    vm_compute. discriminate.
Qed.

(** ** The download loop of [syncWithFirebase] *)

Lemma counts_nil i : counts i 0 [].
Proof. done. Qed.

Lemma counts_app i n1 n2 evs1 evs2 :
  counts i n1 evs1 → counts i n2 evs2 → counts i (n1 + n2) (evs1 ++ evs2).
Proof.
  intros (A1 & B1 & C1) (A2 & B2 & C2). unfold counts.
  rewrite sends_to_app, sends_app, commits_app. lia.
Qed.

Lemma counts_send_events tr i g :
  counts i (Nat.b2n (isOnline g)) (send_events tr i g).
Proof.
  unfold send_events. destruct (isOnline g); [|done].
  unfold counts, sends_to, sends, commits. simpl. by rewrite Nat.eqb_refl.
Qed.

Lemma trace_sendControlToNode_events n w :
  trace (sendControlToNode n w) = trace w ++ send_events (trace w) n (greenhouses w !!! n).
Proof. by rewrite trace_sendControlToNode. Qed.

Lemma EEPROM_sendControlToNode n w : EEPROM (sendControlToNode n w) = EEPROM w.
Proof.
  destruct (isOnline (greenhouses w !!! n)) eqn:H.
  - by rewrite sendControlToNode_online.
  - by rewrite sendControlToNode_offline.
Qed.

(** [greenhouses[i].settings.x = v; sendControlToNode(i);] in one step. *)
Lemma assign_and_send i f w :
  i < length (greenhouses w) →
  let g := with_settings f (greenhouses w !!! i) in
  let w' := sendControlToNode i (upd_settings i f w) in
  greenhouses w' !!! i = sent_record g ∧
  (∀ j, i ≠ j → greenhouses w' !!! j = greenhouses w !!! j) ∧
  length (greenhouses w') = length (greenhouses w) ∧
  trace w' = trace w ++ send_events (trace w) i g ∧
  RTDB w' = RTDB w ∧ EEPROM w' = EEPROM w.
Proof.
  intros Hi. cbv zeta. repeat split.
  - rewrite lookup_sendControlToNode_eq by (by rewrite length_upd_settings).
    by rewrite lookup_upd_settings_eq.
  - intros j Hj. rewrite lookup_sendControlToNode_ne by done.
    by rewrite lookup_upd_settings_ne.
  - by rewrite length_sendControlToNode, length_upd_settings.
  - rewrite trace_sendControlToNode_events. by rewrite lookup_upd_settings_eq.
  - by rewrite RTDB_sendControlToNode.
  - by rewrite EEPROM_sendControlToNode.
Qed.

Lemma node_step_refl i w : node_step i (greenhouses w !!! i) 0 w w.
Proof.
  repeat split; try done. exists []. split; [by rewrite app_nil_r|apply counts_nil].
Qed.

Lemma node_step_trans i g1 g2 n1 n2 w w1 w2 :
  node_step i g1 n1 w w1 → node_step i g2 n2 w1 w2 → node_step i g2 (n1 + n2) w w2.
Proof.
  intros (R1 & F1 & L1 & (e1 & T1 & C1) & E1) (R2 & F2 & L2 & (e2 & T2 & C2) & E2).
  repeat split.
  - done.
  - intros j Hj. by rewrite F2, F1.
  - by rewrite L2.
  - exists (e1 ++ e2). split; [by rewrite T2, T1, app_assoc|by apply counts_app].
  - by rewrite E2.
Qed.

(** The pattern of the first three fields:
    [if (differs) { settings.x = v; sendControlToNode(i); }]. *)
Lemma cond_assign_and_send (c : bool) i f w :
  i < 256 → i < length (greenhouses w) →
  let g := greenhouses w !!! i in
  node_step i (if c then sent_record (with_settings f g) else g)
            (Nat.b2n (c && isOnline g)) w
            (if c then sendControlToNode (uint8_t i) (upd_settings i f w) else w).
Proof.
  intros H8 Hi g. destruct c; [|apply node_step_refl].
  rewrite uint8_t_small by done.
  destruct (assign_and_send i f w Hi) as (R & F & L & T & _ & E).
  repeat split; try done.
  eexists. split; [exact T|]. apply counts_send_events.
Qed.

Lemma pull_temperatureThreshold_step i doc w :
  i < 256 → i < length (greenhouses w) →
  let g := greenhouses w !!! i in
  node_step i (pulled_temperatureThreshold doc g)
            (Nat.b2n (threshold_differs doc (settings g) && isOnline g))
            w (pull_temperatureThreshold i doc w).
Proof.
  intros H8 Hi g. unfold pull_temperatureThreshold, pulled_temperatureThreshold,
    threshold_differs.
  destruct (doc_temperatureThreshold doc) as [v|]; [|apply node_step_refl].
  by apply cond_assign_and_send.
Qed.

Lemma pull_hysteresis_step i doc w :
  i < 256 → i < length (greenhouses w) →
  let g := greenhouses w !!! i in
  node_step i (pulled_hysteresis doc g)
            (Nat.b2n (hysteresis_differs doc (settings g) && isOnline g))
            w (pull_hysteresis i doc w).
Proof.
  intros H8 Hi g. unfold pull_hysteresis, pulled_hysteresis, hysteresis_differs.
  destruct (doc_hysteresis doc) as [v|]; [|apply node_step_refl].
  by apply cond_assign_and_send.
Qed.

Lemma pull_mode_step i doc w :
  i < 256 → i < length (greenhouses w) →
  let g := greenhouses w !!! i in
  node_step i (pulled_mode doc g)
            (Nat.b2n (mode_differs doc (settings g) && isOnline g))
            w (pull_mode i doc w).
Proof.
  intros H8 Hi g. unfold pull_mode, pulled_mode, mode_differs.
  destruct (doc_mode doc) as [mode|]; [|apply node_step_refl].
  by apply cond_assign_and_send.
Qed.

Lemma pull_manualControl_step i doc w :
  i < 256 → i < length (greenhouses w) →
  let g := greenhouses w !!! i in
  node_step i (pulled_manualControl doc g)
            (Nat.b2n (manual_given doc && isOnline g))
            w (pull_manualControl i doc w).
Proof.
  intros H8 Hi g. unfold pull_manualControl, pulled_manualControl, manual_given.
  destruct (doc_manualControl doc) as [command|]; [|apply node_step_refl].
  cbv zeta. destruct (negb (Ascii.eqb (manualCmd_of command) NUL)); [|apply node_step_refl].
  rewrite uint8_t_small by done.
  destruct (assign_and_send i (set_manualCommand (manualCmd_of command)) w Hi)
    as (R & F & L & T & _ & E).
  unfold updateNode_clear. cbv zeta.
  repeat split.
  - by destruct (rtdb_write _).
  - intros j Hj. destruct (rtdb_write _); simpl; by apply F.
  - by destruct (rtdb_write _).
  - exists (send_events (trace w) i
              (with_settings (set_manualCommand (manualCmd_of command)) g) ++
            [RtdbClearManualControl i
               (rtdb_write (trace (sendControlToNode i
                  (upd_settings i (set_manualCommand (manualCmd_of command)) w))))]).
    split.
    + destruct (rtdb_write _) eqn:Hok; simpl; rewrite T, <- app_assoc; done.
    + replace (Nat.b2n (true && isOnline g))
        with (Nat.b2n (isOnline (with_settings (set_manualCommand (manualCmd_of command)) g)) + 0)
        by (simpl; lia).
      apply counts_app; [apply counts_send_events|done].
  - by destruct (rtdb_write _).
Qed.

(** *** The record of the node, field by field *)

Ltac pulled :=
  unfold pulled_record, pulled_manualControl, pulled_mode, pulled_hysteresis,
    pulled_temperatureThreshold, sent_record, with_settings;
  repeat case_match; simpl in *; try done; try congruence.

Lemma isOnline_pulled_temperatureThreshold doc g :
  isOnline (pulled_temperatureThreshold doc g) = isOnline g.
Proof. pulled. Qed.

Lemma isOnline_pulled_hysteresis doc g :
  isOnline (pulled_hysteresis doc g) = isOnline g.
Proof. pulled. Qed.

Lemma isOnline_pulled_mode doc g : isOnline (pulled_mode doc g) = isOnline g.
Proof. pulled. Qed.

Lemma isOnline_pulled_manualControl doc g :
  isOnline (pulled_manualControl doc g) = isOnline g.
Proof. pulled. Qed.

Lemma isOnline_pulled_record doc g : isOnline (pulled_record doc g) = isOnline g.
Proof.
  unfold pulled_record.
  by rewrite isOnline_pulled_manualControl, isOnline_pulled_mode,
    isOnline_pulled_hysteresis, isOnline_pulled_temperatureThreshold.
Qed.

Lemma hysteresis_pulled_temperatureThreshold doc g :
  hysteresis (settings (pulled_temperatureThreshold doc g)) = hysteresis (settings g).
Proof. pulled. Qed.

Lemma autoMode_pulled_temperatureThreshold doc g :
  autoMode (settings (pulled_temperatureThreshold doc g)) = autoMode (settings g).
Proof. pulled. Qed.

Lemma autoMode_pulled_hysteresis doc g :
  autoMode (settings (pulled_hysteresis doc g)) = autoMode (settings g).
Proof. pulled. Qed.

(** The three settings fields after all four fields of the document have
    been gone through. *)
Lemma temperatureThreshold_pulled_record doc g :
  temperatureThreshold (settings (pulled_record doc g)) =
    match doc_temperatureThreshold doc with
    | Some v => if fne v (temperatureThreshold (settings g)) then v
                else temperatureThreshold (settings g)
    | None => temperatureThreshold (settings g)
    end.
Proof. pulled. Qed.

Lemma hysteresis_pulled_record doc g :
  hysteresis (settings (pulled_record doc g)) =
    match doc_hysteresis doc with
    | Some v => if fne v (hysteresis (settings g)) then v else hysteresis (settings g)
    | None => hysteresis (settings g)
    end.
Proof. pulled. Qed.

Lemma autoMode_pulled_record doc g :
  autoMode (settings (pulled_record doc g)) =
    match doc_mode doc with
    | Some mode => String.eqb mode "auto"
    | None => autoMode (settings g)
    end.
Proof.
  unfold pulled_record, pulled_manualControl, pulled_mode, pulled_hysteresis,
    pulled_temperatureThreshold, sent_record, with_settings.
  destruct (doc_mode doc) as [mode|]; repeat case_match; simpl in *; try done;
    match goal with
    | H : negb (Bool.eqb ?a ?b) = false |- _ =>
        apply negb_false_iff, Bool.eqb_prop in H; simpl in H; congruence
    end.
Qed.

(** *** All four fields *)

Lemma pull_fields_step i doc w :
  i < 256 → i < length (greenhouses w) →
  let g := greenhouses w !!! i in
  node_step i (pulled_record doc g)
            (if isOnline g then changed_fields doc (settings g) else 0)
            w (pull_fields i doc w).
Proof.
  intros H8 Hi g. unfold pull_fields, pulled_record.
  pose proof (pull_temperatureThreshold_step i doc w H8 Hi) as S1. cbv zeta in S1.
  fold g in S1. set (w1 := pull_temperatureThreshold i doc w) in *.
  assert (R1 : greenhouses w1 !!! i = pulled_temperatureThreshold doc g) by apply S1.
  assert (Hi1 : i < length (greenhouses w1)).
  { destruct S1 as (_ & _ & L & _). lia. }
  pose proof (pull_hysteresis_step i doc w1 H8 Hi1) as S2. cbv zeta in S2.
  rewrite R1 in S2. set (w2 := pull_hysteresis i doc w1) in *.
  assert (R2 : greenhouses w2 !!! i =
               pulled_hysteresis doc (pulled_temperatureThreshold doc g)) by apply S2.
  assert (Hi2 : i < length (greenhouses w2)).
  { destruct S2 as (_ & _ & L & _). lia. }
  pose proof (pull_mode_step i doc w2 H8 Hi2) as S3. cbv zeta in S3.
  rewrite R2 in S3. set (w3 := pull_mode i doc w2) in *.
  assert (R3 : greenhouses w3 !!! i =
    pulled_mode doc (pulled_hysteresis doc (pulled_temperatureThreshold doc g)))
    by apply S3.
  assert (Hi3 : i < length (greenhouses w3)).
  { destruct S3 as (_ & _ & L & _). lia. }
  pose proof (pull_manualControl_step i doc w3 H8 Hi3) as S4. cbv zeta in S4.
  rewrite R3 in S4.
  pose proof (node_step_trans _ _ _ _ _ _ _ _
                (node_step_trans _ _ _ _ _ _ _ _
                   (node_step_trans _ _ _ _ _ _ _ _ S1 S2) S3) S4) as S.
  rewrite isOnline_pulled_mode, !isOnline_pulled_hysteresis,
    !isOnline_pulled_temperatureThreshold in S.
  unfold hysteresis_differs, mode_differs in S.
  rewrite autoMode_pulled_hysteresis, autoMode_pulled_temperatureThreshold,
    hysteresis_pulled_temperatureThreshold in S.
  fold (hysteresis_differs doc (settings g)) (mode_differs doc (settings g)) in S.
  replace (if isOnline g then changed_fields doc (settings g) else 0)
    with (Nat.b2n (threshold_differs doc (settings g) && isOnline g) +
          Nat.b2n (hysteresis_differs doc (settings g) && isOnline g) +
          Nat.b2n (mode_differs doc (settings g) && isOnline g) +
          Nat.b2n (manual_given doc && isOnline g)); [exact S|].
  unfold changed_fields.
  destruct (isOnline g), (threshold_differs doc (settings g)),
    (hysteresis_differs doc (settings g)), (mode_differs doc (settings g)),
    (manual_given doc); reflexivity.
Qed.

(** *** [saveSettingsToEEPROM] *)

Lemma greenhouses_saveSettingsToEEPROM w :
  greenhouses (saveSettingsToEEPROM w) = greenhouses w.
Proof.
  unfold saveSettingsToEEPROM. simpl.
  by apply (foldl_preserves greenhouses).
Qed.

Lemma RTDB_saveSettingsToEEPROM w : RTDB (saveSettingsToEEPROM w) = RTDB w.
Proof.
  unfold saveSettingsToEEPROM. simpl. by apply (foldl_preserves RTDB).
Qed.

Lemma trace_saveSettingsToEEPROM w :
  trace (saveSettingsToEEPROM w) = trace w ++ [EepromCommit].
Proof.
  unfold saveSettingsToEEPROM. simpl. f_equal. by apply (foldl_preserves trace).
Qed.

Lemma EEPROM_save_loop n : ∀ a w k,
  1 ≤ a →
  EEPROM (foldl (λ w i, EEPROM_put (i - 1) (settings (greenhouses w !!! i)) w)
                w (seq a n)) k =
    if decide (a ≤ S k < a + n) then settings (greenhouses w !!! S k) else EEPROM w k.
Proof.
  induction n as [|n IH]; intros a w k Ha; simpl.
  - case_decide; [lia|done].
  - rewrite IH by lia. simpl. repeat case_decide; try lia; try done.
    + assert (k = a - 1) as -> by lia. rewrite fn_lookup_insert.
      by replace (S (a - 1)) with a by lia.
    + rewrite fn_lookup_insert_ne by lia. done.
Qed.

(** Slot [i-1] of the flash holds the settings of node [i] after a save. *)
Lemma EEPROM_saveSettingsToEEPROM w i :
  1 ≤ i ≤ MAX_GREENHOUSES →
  EEPROM (saveSettingsToEEPROM w) (i - 1) = settings (greenhouses w !!! i).
Proof.
  intros Hi. unfold saveSettingsToEEPROM. simpl. rewrite EEPROM_save_loop by lia.
  rewrite decide_True by lia. by replace (S (i - 1)) with i by lia.
Qed.

(** *** One node of the download loop *)

Lemma syncNode_step i doc w :
  i < 256 → i < length (greenhouses w) →
  let g := greenhouses w !!! i in
  let n := if isOnline g then changed_fields doc (settings g) else 0 in
  let w' := syncNode i doc w in
  greenhouses w' !!! i = pulled_record doc g ∧
  (∀ j, i ≠ j → greenhouses w' !!! j = greenhouses w !!! j) ∧
  length (greenhouses w') = length (greenhouses w) ∧
  ∃ evs, trace w' = trace w ++ evs ++ [EepromCommit] ∧ counts i n evs.
Proof.
  intros H8 Hi. cbv zeta. unfold syncNode.
  destruct (pull_fields_step i doc w H8 Hi) as (R & F & L & (evs & T & C) & _).
  rewrite greenhouses_saveSettingsToEEPROM, trace_saveSettingsToEEPROM.
  repeat split; try done. exists evs. by rewrite T, <- app_assoc.
Qed.

Lemma greenhouses_updateNode_clear i w :
  greenhouses (updateNode_clear i w) = greenhouses w.
Proof. unfold updateNode_clear. cbv zeta. by destruct (rtdb_write _). Qed.

Lemma trace_updateNode_clear i w :
  trace (updateNode_clear i w) =
    trace w ++ [RtdbClearManualControl i (rtdb_write (trace w))].
Proof. unfold updateNode_clear. cbv zeta. by destruct (rtdb_write _). Qed.

(** The four fields of the download loop, each as a step from a record
    given by its fields to the record and the trace after it. *)
Lemma pull_temperatureThreshold_explicit i doc w sen thr hy au cm sch on ls :
  i < 256 → i < length (greenhouses w) →
  greenhouses w !!! i =
    mkGreenhouseData sen (mkGreenhouseSettings thr hy au cm sch) on ls →
  let d := match doc_temperatureThreshold doc with
           | Some v => fne v thr | None => false end in
  let thr' := match doc_temperatureThreshold doc with
              | Some v => if fne v thr then v else thr | None => thr end in
  let m := mkControlMessage i thr' hy au cm in
  let w' := pull_temperatureThreshold i doc w in
  greenhouses w' !!! i =
    mkGreenhouseData sen
      (mkGreenhouseSettings thr' hy au (if d && on then NUL else cm) sch) on ls ∧
  length (greenhouses w') = length (greenhouses w) ∧
  trace w' = trace w ++ (if d && on then [EspNowSend m (esp_now_send (trace w) m)] else []).
Proof.
  intros H8 Hi Hg. cbv zeta. unfold pull_temperatureThreshold. rewrite Hg.
  cbn [settings temperatureThreshold].
  destruct (doc_temperatureThreshold doc) as [v|];
    [destruct (fne v thr)|]; try by rewrite app_nil_r.
  rewrite uint8_t_small by done.
  destruct (assign_and_send i (set_temperatureThreshold v) w Hi) as (R & _ & L & T & _).
  rewrite R, L, T, Hg. unfold send_events, sent_record. by destruct on.
Qed.

Lemma pull_hysteresis_explicit i doc w sen thr hy au cm sch on ls :
  i < 256 → i < length (greenhouses w) →
  greenhouses w !!! i =
    mkGreenhouseData sen (mkGreenhouseSettings thr hy au cm sch) on ls →
  let d := match doc_hysteresis doc with
           | Some v => fne v hy | None => false end in
  let hy' := match doc_hysteresis doc with
             | Some v => if fne v hy then v else hy | None => hy end in
  let m := mkControlMessage i thr hy' au cm in
  let w' := pull_hysteresis i doc w in
  greenhouses w' !!! i =
    mkGreenhouseData sen
      (mkGreenhouseSettings thr hy' au (if d && on then NUL else cm) sch) on ls ∧
  length (greenhouses w') = length (greenhouses w) ∧
  trace w' = trace w ++ (if d && on then [EspNowSend m (esp_now_send (trace w) m)] else []).
Proof.
  intros H8 Hi Hg. cbv zeta. unfold pull_hysteresis. rewrite Hg.
  cbn [settings hysteresis].
  destruct (doc_hysteresis doc) as [v|];
    [destruct (fne v hy)|]; try by rewrite app_nil_r.
  rewrite uint8_t_small by done.
  destruct (assign_and_send i (set_hysteresis v) w Hi) as (R & _ & L & T & _).
  rewrite R, L, T, Hg. unfold send_events, sent_record. by destruct on.
Qed.

Lemma pull_mode_explicit i doc w sen thr hy au cm sch on ls :
  i < 256 → i < length (greenhouses w) →
  greenhouses w !!! i =
    mkGreenhouseData sen (mkGreenhouseSettings thr hy au cm sch) on ls →
  let d := match doc_mode doc with
           | Some mode => negb (Bool.eqb (String.eqb mode "auto") au)
           | None => false end in
  let au' := match doc_mode doc with
             | Some mode => String.eqb mode "auto" | None => au end in
  let m := mkControlMessage i thr hy au' cm in
  let w' := pull_mode i doc w in
  greenhouses w' !!! i =
    mkGreenhouseData sen
      (mkGreenhouseSettings thr hy au' (if d && on then NUL else cm) sch) on ls ∧
  length (greenhouses w') = length (greenhouses w) ∧
  trace w' = trace w ++ (if d && on then [EspNowSend m (esp_now_send (trace w) m)] else []).
Proof.
  intros H8 Hi Hg. cbv zeta. unfold pull_mode. rewrite Hg.
  cbn [settings autoMode].
  destruct (doc_mode doc) as [mode|]; [|by rewrite app_nil_r]. cbv zeta.
  destruct (Bool.eqb (String.eqb mode "auto") au) eqn:E; cbn [negb].
  - apply Bool.eqb_prop in E. rewrite E, app_nil_r, Hg. done.
  - rewrite uint8_t_small by done.
    destruct (assign_and_send i (set_autoMode (String.eqb mode "auto")) w Hi)
      as (R & _ & L & T & _).
    rewrite R, L, T, Hg. unfold send_events, sent_record. by destruct on.
Qed.

Lemma pull_manualControl_explicit i doc w sen thr hy au cm sch on ls :
  i < 256 → i < length (greenhouses w) →
  greenhouses w !!! i =
    mkGreenhouseData sen (mkGreenhouseSettings thr hy au cm sch) on ls →
  let d := manual_given doc in
  let cmd := match doc_manualControl doc with
             | Some c => manualCmd_of c | None => NUL end in
  let m := mkControlMessage i thr hy au cmd in
  let tr := trace w ++ (if d && on then [EspNowSend m (esp_now_send (trace w) m)] else []) in
  let w' := pull_manualControl i doc w in
  greenhouses w' !!! i =
    mkGreenhouseData sen
      (mkGreenhouseSettings thr hy au (if d then (if on then NUL else cmd) else cm) sch)
      on ls ∧
  length (greenhouses w') = length (greenhouses w) ∧
  trace w' = (if d then tr ++ [RtdbClearManualControl i (rtdb_write tr)] else tr).
Proof.
  intros H8 Hi Hg. cbv zeta. unfold pull_manualControl, manual_given.
  destruct (doc_manualControl doc) as [c|]; [|by rewrite app_nil_r]. cbv zeta.
  destruct (negb (Ascii.eqb (manualCmd_of c) NUL)); [|by rewrite app_nil_r].
  rewrite uint8_t_small by done.
  destruct (assign_and_send i (set_manualCommand (manualCmd_of c)) w Hi)
    as (R & _ & L & T & _).
  rewrite greenhouses_updateNode_clear, trace_updateNode_clear.
  rewrite R, L, T, Hg. unfold send_events, sent_record. by destruct on.
Qed.

(** C4 (as amended).  For a node whose settings document could be read,
    the download loop goes through threshold, hysteresis, mode and
    manualControl in this order.  A threshold, hysteresis or mode that differs
    from the local value is assigned, a manualControl string that names a
    command is stored as [manualCommand], and each such field is followed at
    once by its own [sendControlToNode] call, before the next field is looked
    at: a node with [isOnline] set is sent one message per such field (0 to
    4), each carrying the values assigned so far and the old values of the
    fields still to come, and a node with [isOnline] clear is sent none.
    After the four fields [saveSettingsToEEPROM] runs whether or not any field
    differed and leaves the settings of every node 1..MAX in its flash slot.
    No other node's record changes.  For a node without a readable document
    the iteration does nothing. *)
Theorem syncNode_sends_and_persists (i : nat) (doc : SettingsDoc) (w : World) :
  i < 256 → 1 ≤ i ≤ MAX_GREENHOUSES → i < length (greenhouses w) →
  let g := greenhouses w !!! i in
  let s := settings g in
  let on := isOnline g in
  let dT := threshold_differs doc s in
  let dH := hysteresis_differs doc s in
  let dA := mode_differs doc s in
  let dM := manual_given doc in
  let thr' := match doc_temperatureThreshold doc with
              | Some v => if fne v (temperatureThreshold s) then v
                          else temperatureThreshold s
              | None => temperatureThreshold s
              end in
  let hyst' := match doc_hysteresis doc with
               | Some v => if fne v (hysteresis s) then v else hysteresis s
               | None => hysteresis s
               end in
  let auto' := match doc_mode doc with
               | Some mode => String.eqb mode "auto"
               | None => autoMode s
               end in
  let cmd := match doc_manualControl doc with
             | Some c => manualCmd_of c
             | None => NUL
             end in
  let cmdT := if dT && on then NUL else manualCommand s in
  let cmdH := if dH && on then NUL else cmdT in
  let cmdA := if dA && on then NUL else cmdH in
  let cmd' := if dM then (if on then NUL else cmd) else cmdA in
  let send (c : bool) (tr : list Event) (m : ControlMessage) :=
    if c && on then [EspNowSend m (esp_now_send tr m)] else [] in
  let tr1 := trace w ++
    send dT (trace w)
      (mkControlMessage i thr' (hysteresis s) (autoMode s) (manualCommand s)) in
  let tr2 := tr1 ++ send dH tr1 (mkControlMessage i thr' hyst' (autoMode s) cmdT) in
  let tr3 := tr2 ++ send dA tr2 (mkControlMessage i thr' hyst' auto' cmdH) in
  let tr4 := tr3 ++ send dM tr3 (mkControlMessage i thr' hyst' auto' cmd) in
  let tr5 := if dM then tr4 ++ [RtdbClearManualControl i (rtdb_write tr4)] else tr4 in
  let n := if on then changed_fields doc s else 0 in
  let w' := syncNode i doc w in
  trace w' = tr5 ++ [EepromCommit] ∧
  greenhouses w' !!! i =
    mkGreenhouseData (sensor g)
      (mkGreenhouseSettings thr' hyst' auto' cmd' (schedule s)) on (lastSeen g) ∧
  (∀ j, j ≠ i → greenhouses w' !!! j = greenhouses w !!! j) ∧
  (∀ k, EEPROM w' k =
        if decide (k < MAX_GREENHOUSES) then settings (greenhouses w' !!! S k)
        else EEPROM w k) ∧
  sends_to i (trace w') = sends_to i (trace w) + n ∧
  sends (trace w') = sends (trace w) + n ∧
  commits (trace w') = S (commits (trace w)) ∧
  last (trace w') = Some EepromCommit ∧
  EEPROM w' (i - 1) = settings (greenhouses w' !!! i) ∧
  (getJSON i w = Some doc → syncWithFirebase_download_step w i = w') ∧
  (getJSON i w = None → syncWithFirebase_download_step w i = w).
Proof.
  intros H8 Hi Hlen g s on dT dH dA dM thr' hyst' auto' cmd cmdT cmdH cmdA cmd'
    send tr1 tr2 tr3 tr4 tr5 n w'.
  destruct (syncNode_step i doc w H8 Hlen) as (R & F & L & (evs & T & (C1 & C2 & C3))).
  assert (Hflash : ∀ k, EEPROM w' k =
            if decide (k < MAX_GREENHOUSES)
            then settings (greenhouses w' !!! S k) else EEPROM w k).
  { intros k. subst w'. unfold syncNode at 1. unfold saveSettingsToEEPROM.
    cbn [EEPROM log]. rewrite EEPROM_save_loop by lia.
    destruct (pull_fields_step i doc w H8 Hlen) as (_ & _ & _ & _ & E).
    unfold syncNode. rewrite greenhouses_saveSettingsToEEPROM, E.
    repeat case_decide; try done; lia. }
  (* the four fields, one after the other *)
  assert (Hg : greenhouses w !!! i =
    mkGreenhouseData (sensor g)
      (mkGreenhouseSettings (temperatureThreshold s) (hysteresis s) (autoMode s)
         (manualCommand s) (schedule s)) on (lastSeen g)).
  { subst g s on. by destruct (greenhouses w !!! i) as [? [] ? ?]. }
  destruct (pull_temperatureThreshold_explicit i doc w _ _ _ _ _ _ _ _ H8 Hlen Hg)
    as (R1 & L1 & T1).
  set (w1 := pull_temperatureThreshold i doc w) in *.
  destruct (pull_hysteresis_explicit i doc w1 _ _ _ _ _ _ _ _ H8 ltac:(lia) R1)
    as (R2 & L2 & T2).
  set (w2 := pull_hysteresis i doc w1) in *.
  destruct (pull_mode_explicit i doc w2 _ _ _ _ _ _ _ _ H8 ltac:(lia) R2)
    as (R3 & L3 & T3).
  set (w3 := pull_mode i doc w2) in *.
  destruct (pull_manualControl_explicit i doc w3 _ _ _ _ _ _ _ _ H8 ltac:(lia) R3)
    as (R4 & L4 & T4).
  set (w4 := pull_manualControl i doc w3) in *.
  assert (T1' : trace w1 = tr1) by exact T1.
  assert (T2' : trace w2 = tr2) by (rewrite T2, T1'; reflexivity).
  assert (T3' : trace w3 = tr3) by (rewrite T3, T2'; reflexivity).
  assert (T4' : trace w4 = tr5) by (rewrite T4, T3'; reflexivity).
  assert (Hw' : w' = saveSettingsToEEPROM w4) by reflexivity.
  split; [|split; [|split; [|split; [exact Hflash|]]]].
  - rewrite Hw', trace_saveSettingsToEEPROM, T4'. done.
  - rewrite Hw', greenhouses_saveSettingsToEEPROM. exact R4.
  - intros j Hj. apply F. congruence.
  - fold w' in T. rewrite T. rewrite !sends_to_app, !sends_app, !commits_app, C1, C2, C3.
    change (sends_to i [EepromCommit]) with 0. change (sends [EepromCommit]) with 0.
    change (commits [EepromCommit]) with 1. unfold n, on, s, g.
    repeat split.
    + lia.
    + lia.
    + lia.
    + rewrite app_assoc. apply last_snoc.
    + rewrite Hflash. rewrite decide_True by lia. by replace (S (i - 1)) with i by lia.
    + intros Hdoc. unfold syncWithFirebase_download_step. by rewrite Hdoc.
    + intros Hdoc. unfold syncWithFirebase_download_step. by rewrite Hdoc.
Qed.

(** *** The same document a second time *)

Lemma fne_refl v : isnan v = false → fne v v = false.
Proof.
  intros Hv. unfold fne, SFeqb, SFcompare.
  destruct v as [[]|[]| |[] m e]; try done;
    rewrite Z.compare_refl;
    change (Pos.compare_cont Eq m m) with (Pos.compare m m);
    by rewrite Pos.compare_refl.
Qed.

Lemma differs_after_pull doc g :
  (∀ v, doc_temperatureThreshold doc = Some v → isnan v = false) →
  (∀ v, doc_hysteresis doc = Some v → isnan v = false) →
  threshold_differs doc (settings (pulled_record doc g)) = false ∧
  hysteresis_differs doc (settings (pulled_record doc g)) = false ∧
  mode_differs doc (settings (pulled_record doc g)) = false.
Proof.
  intros Ht Hh. unfold threshold_differs, hysteresis_differs, mode_differs.
  rewrite temperatureThreshold_pulled_record, hysteresis_pulled_record,
    autoMode_pulled_record.
  repeat split.
  - destruct (doc_temperatureThreshold doc) as [v|]; [|done].
    destruct (fne v (temperatureThreshold (settings g))) eqn:E; [|done].
    by apply fne_refl, Ht.
  - destruct (doc_hysteresis doc) as [v|]; [|done].
    destruct (fne v (hysteresis (settings g))) eqn:E; [|done].
    by apply fne_refl, Hh.
  - destruct (doc_mode doc) as [mode|]; [|done].
    by rewrite Bool.eqb_reflx.
Qed.

Lemma pulled_record_fixed doc g :
  threshold_differs doc (settings g) = false →
  hysteresis_differs doc (settings g) = false →
  mode_differs doc (settings g) = false →
  manual_given doc = false →
  pulled_record doc g = g.
Proof.
  unfold threshold_differs, hysteresis_differs, mode_differs, manual_given,
    pulled_record, pulled_manualControl, pulled_mode, pulled_hysteresis,
    pulled_temperatureThreshold.
  intros Ht Hh Hm Hc.
  destruct (doc_temperatureThreshold doc); rewrite ?Ht;
    destruct (doc_hysteresis doc); rewrite ?Hh;
    destruct (doc_mode doc); rewrite ?Hm;
    destruct (doc_manualControl doc); rewrite ?Hc; done.
Qed.

(** C5 (as amended).  Run the body of the download loop twice on the same
    document (its two numbers not NaN), for a node with [isOnline] set.  The
    first run transmits once per field that makes the loop act, which may be
    0, 1 or more.  In the second run threshold, hysteresis and mode equal the
    local values and cause no transmission; a manualControl command still
    present in the document is sent again, since that field is not compared
    with local state.  Without such a command the second run transmits
    nothing and leaves every record as the first run left it. *)
Theorem syncNode_twice (i : nat) (doc : SettingsDoc) (w : World) :
  i < 256 → i < length (greenhouses w) →
  (∀ v, doc_temperatureThreshold doc = Some v → isnan v = false) →
  (∀ v, doc_hysteresis doc = Some v → isnan v = false) →
  let g := greenhouses w !!! i in
  let w1 := syncNode i doc w in
  let w2 := syncNode i doc w1 in
  sends (trace w1) =
    sends (trace w) + (if isOnline g then changed_fields doc (settings g) else 0) ∧
  sends (trace w2) =
    sends (trace w1) + (if isOnline g then Nat.b2n (manual_given doc) else 0) ∧
  (manual_given doc = false →
   sends (trace w2) = sends (trace w1) ∧
   ∀ j, greenhouses w2 !!! j = greenhouses w1 !!! j).
Proof.
  intros H8 Hi Ht Hh. cbv zeta.
  destruct (syncNode_step i doc w H8 Hi) as (R1 & F1 & L1 & (e1 & T1 & (_ & C1 & _))).
  set (w1 := syncNode i doc w) in *.
  assert (Hi1 : i < length (greenhouses w1)) by lia.
  destruct (syncNode_step i doc w1 H8 Hi1) as (R2 & F2 & L2 & (e2 & T2 & (_ & C2 & _))).
  rewrite R1, isOnline_pulled_record in C2.
  destruct (differs_after_pull doc (greenhouses w !!! i) Ht Hh) as (D1 & D2 & D3).
  unfold changed_fields in C2. rewrite D1, D2, D3 in C2. simpl in C2.
  assert (S1 : sends (trace w1) = sends (trace w) +
    (if isOnline (greenhouses w !!! i)
     then changed_fields doc (settings (greenhouses w !!! i)) else 0)).
  { rewrite T1, !sends_app, C1. change (sends [EepromCommit]) with 0. lia. }
  assert (S2 : sends (trace (syncNode i doc w1)) = sends (trace w1) +
    (if isOnline (greenhouses w !!! i) then Nat.b2n (manual_given doc) else 0)).
  { rewrite T2, !sends_app, C2. change (sends [EepromCommit]) with 0. lia. }
  split; [done|]. split; [done|]. intros Hc. split.
  - rewrite S2, Hc. by destruct (isOnline _).
  - intros j. destruct (decide (i = j)) as [<-|Hij]; [|by apply F2].
    rewrite R2, R1. by apply pulled_record_fixed.
Qed.

(** *** The manualControl field *)

Lemma manualCmd_of_other command :
  command ≠ "open"%string → command ≠ "close"%string → command ≠ "stop"%string →
  manualCmd_of command = NUL.
Proof.
  intros H1 H2 H3. unfold manualCmd_of.
  destruct (String.eqb_spec command "open"); [done|].
  destruct (String.eqb_spec command "close"); [done|].
  by destruct (String.eqb_spec command "stop").
Qed.

(** C3 (as amended).  In the download loop, a manualControl string "open",
    "close" or "stop" becomes the command 'O', 'C' or 'S'; any other string
    leaves everything as it was.  For one of the three, the command is stored
    in the node's record and [sendControlToNode] is called: a node with
    [isOnline] set is sent one message carrying the command and its record
    ends with [manualCommand = 0]; a node with [isOnline] clear is sent
    nothing and keeps the command in its record.  Then a write of
    ["manualControl": null] is issued.  If that write gets through, the
    node's remote document has no manualControl field and its other fields are
    as before; if it fails, the remote store is as before.  No other node's
    record or document changes. *)
Theorem pull_manualControl_applies (i : nat) (doc : SettingsDoc) (command : string)
    (w : World) :
  i < 256 → i < length (greenhouses w) →
  doc_manualControl doc = Some command →
  let g := greenhouses w !!! i in
  let s := settings g in
  let cmd := manualCmd_of command in
  let w' := pull_manualControl i doc w in
  let msg := mkControlMessage i (temperatureThreshold s) (hysteresis s) (autoMode s) cmd in
  let tr := trace w ++
            (if isOnline g then [EspNowSend msg (esp_now_send (trace w) msg)] else []) in
  (manualCmd_of "open" = "O"%char ∧ manualCmd_of "close" = "C"%char ∧
   manualCmd_of "stop" = "S"%char) ∧
  (command ≠ "open"%string → command ≠ "close"%string → command ≠ "stop"%string →
   w' = w) ∧
  (command = "open"%string ∨ command = "close"%string ∨ command = "stop"%string →
   cmd ≠ NUL ∧
   greenhouses w' !!! i =
     mkGreenhouseData (sensor g)
       (mkGreenhouseSettings (temperatureThreshold s) (hysteresis s) (autoMode s)
          (if isOnline g then NUL else cmd) (schedule s))
       (isOnline g) (lastSeen g) ∧
   (∀ j, j ≠ i → greenhouses w' !!! j = greenhouses w !!! j) ∧
   trace w' = tr ++ [RtdbClearManualControl i (rtdb_write tr)] ∧
   getJSON i w' =
     (if rtdb_write tr
      then (λ d, mkSettingsDoc (doc_temperatureThreshold d) (doc_hysteresis d)
                   (doc_mode d) None) <$> getJSON i w
      else getJSON i w) ∧
   (∀ j, j ≠ i → getJSON j w' = getJSON j w)).
Proof.
  intros H8 Hi Hdoc. cbv zeta. split; [done|]. unfold pull_manualControl.
  rewrite Hdoc. cbv zeta. split.
  - intros H1 H2 H3. by rewrite manualCmd_of_other.
  - intros Hcmd.
    assert (Hne : manualCmd_of command ≠ NUL)
      by (by destruct Hcmd as [->|[->| ->]]).
    split; [done|].
    replace (negb (Ascii.eqb (manualCmd_of command) NUL)) with true
      by (symmetry; apply negb_true_iff; by apply Ascii.eqb_neq).
    rewrite uint8_t_small by done.
    destruct (assign_and_send i (set_manualCommand (manualCmd_of command)) w Hi)
      as (R & F & L & T & DB & E).
    set (w1 := sendControlToNode i
                 (upd_settings i (set_manualCommand (manualCmd_of command)) w)) in *.
    assert (T1 : trace w1 = trace w ++
      (if isOnline (greenhouses w !!! i)
       then [EspNowSend
               (mkControlMessage i (temperatureThreshold (settings (greenhouses w !!! i)))
                  (hysteresis (settings (greenhouses w !!! i)))
                  (autoMode (settings (greenhouses w !!! i))) (manualCmd_of command))
               (esp_now_send (trace w)
                  (mkControlMessage i
                     (temperatureThreshold (settings (greenhouses w !!! i)))
                     (hysteresis (settings (greenhouses w !!! i)))
                     (autoMode (settings (greenhouses w !!! i))) (manualCmd_of command)))]
       else [])).
    { rewrite T. unfold send_events. simpl. done. }
    unfold updateNode_clear. cbv zeta. rewrite T1.
    set (tr := trace w ++ _) in *.
    repeat split.
    + replace (greenhouses (if rtdb_write tr then _ else _))
        with (greenhouses w1) by (by destruct (rtdb_write tr)).
      rewrite R. unfold sent_record. simpl.
      destruct (isOnline (greenhouses w !!! i)) eqn:Hon;
        unfold with_settings; simpl; by rewrite Hon.
    + intros j Hj.
      replace (greenhouses (if rtdb_write tr then _ else _))
        with (greenhouses w1) by (by destruct (rtdb_write tr)).
      apply F. congruence.
    + destruct (rtdb_write tr); simpl; by rewrite T1.
    + unfold getJSON. destruct (rtdb_write tr); simpl; rewrite DB; [|done].
      rewrite lookup_alter. by rewrite decide_True.
    + intros j Hj. unfold getJSON. destruct (rtdb_write tr); simpl; rewrite DB; [|done].
      rewrite lookup_alter_ne by congruence. done.
Qed.

(** *** Numbers from the remote document *)

(** C8.  The download loop stores a remote threshold that differs from
    the local one as it is, without a range test: the value ends up in the
    node's settings and, the node having [isOnline] set, in the message
    sent right after the assignment.  This holds for every float, among
    them 999, which the load-time test rejects. *)
Theorem syncNode_threshold_not_validated (i : nat) (doc : SettingsDoc) (v : float)
    (w : World) :
  i < 256 → i < length (greenhouses w) →
  let g := greenhouses w !!! i in
  isOnline g = true →
  doc_temperatureThreshold doc = Some v →
  fne v (temperatureThreshold (settings g)) = true →
  let w' := syncNode i doc w in
  temperatureThreshold (settings (greenhouses w' !!! i)) = v ∧
  ∃ ok rest,
    trace w' =
      trace w ++
      EspNowSend (mkControlMessage i v (hysteresis (settings g))
                    (autoMode (settings g)) (manualCommand (settings g))) ok :: rest.
Proof.
  intros H8 Hi g Hon Hdoc Hne. cbv zeta. split.
  - destruct (syncNode_step i doc w H8 Hi) as (R & _). rewrite R.
    rewrite temperatureThreshold_pulled_record, Hdoc. fold g. by rewrite Hne.
  - unfold syncNode, pull_fields. rewrite trace_saveSettingsToEEPROM.
    set (w1 := pull_temperatureThreshold i doc w).
    assert (T1 : trace w1 = trace w ++
      [EspNowSend (mkControlMessage i v (hysteresis (settings g))
                     (autoMode (settings g)) (manualCommand (settings g)))
         (esp_now_send (trace w)
            (controlMsg_of i (with_settings (set_temperatureThreshold v) g)))]).
    { subst w1. unfold pull_temperatureThreshold. rewrite Hdoc. fold g. rewrite Hne.
      rewrite uint8_t_small by done.
      destruct (assign_and_send i (set_temperatureThreshold v) w Hi)
        as (_ & _ & _ & T & _). rewrite T. fold g. unfold send_events. simpl.
      by rewrite Hon. }
    assert (Hi1 : i < length (greenhouses w1)).
    { destruct (pull_temperatureThreshold_step i doc w H8 Hi) as (_ & _ & L & _).
      fold w1 in L. lia. }
    destruct (pull_hysteresis_step i doc w1 H8 Hi1) as (_ & _ & L2 & (e2 & T2 & _) & _).
    set (w2 := pull_hysteresis i doc w1) in *.
    assert (Hi2 : i < length (greenhouses w2)) by lia.
    destruct (pull_mode_step i doc w2 H8 Hi2) as (_ & _ & L3 & (e3 & T3 & _) & _).
    set (w3 := pull_mode i doc w2) in *.
    assert (Hi3 : i < length (greenhouses w3)) by lia.
    destruct (pull_manualControl_step i doc w3 H8 Hi3) as (_ & _ & _ & (e4 & T4 & _) & _).
    eexists. exists (e2 ++ e3 ++ e4 ++ [EepromCommit]).
    rewrite T4, T3, T2, T1. rewrite <- !app_assoc. simpl. done.
Qed.

(** * Further properties of the modelled code *)

(** ** The receive callback *)

(** X1.  A packet of the wrong size (the empty one included) or with a
    node id outside 1..MAX leaves everything as it was. *)
Theorem onDataReceived_rejects (now : Z) (data : list Byte.byte) (w : World) :
  length data ≠ sizeof_SensorData ∨
  nodeId (as_SensorData data) < 1 ∨
  MAX_GREENHOUSES < nodeId (as_SensorData data) →
  onDataReceived now data w = w.
Proof.
  intros H. unfold onDataReceived.
  destruct (Nat.eqb_spec (length data) sizeof_SensorData) as [Hlen|Hlen]; [|done].
  destruct H as [H|[H|H]]; [done| |].
  - by rewrite (proj2 (Nat.ltb_lt _ _) H).
  - rewrite (proj2 (Nat.ltb_lt _ _) H). by rewrite orb_true_r.
Qed.

(** X2.  An accepted packet replaces the node's snapshot, sets [isOnline]
    and stamps [lastSeen] with the clock; the node's settings, a waiting
    command among them, stay, and so do the flash, the remote store and
    the trace: the callback never transmits. *)
Theorem onDataReceived_accepts (now : Z) (data : list Byte.byte) (w : World) :
  accepted data → length (greenhouses w) = S MAX_GREENHOUSES →
  let i := nodeId (as_SensorData data) in
  let w' := onDataReceived now data w in
  sensor (greenhouses w' !!! i) = as_SensorData data ∧
  isOnline (greenhouses w' !!! i) = true ∧
  lastSeen (greenhouses w' !!! i) = now ∧
  settings (greenhouses w' !!! i) = settings (greenhouses w !!! i) ∧
  length (greenhouses w') = length (greenhouses w) ∧
  EEPROM w' = EEPROM w ∧ RTDB w' = RTDB w ∧ trace w' = trace w.
Proof.
  intros Hacc Hlen. cbv zeta.
  rewrite onDataReceived_accepted; [|done|destruct Hacc as [_ ?]; lia].
  rewrite length_onDataReceived. repeat split; try done;
    unfold onDataReceived; destruct (Nat.eqb _ _); try done; by destruct (_ || _).
Qed.

Lemma ulong_sub_add (now d : Z) :
  (0 ≤ d < 2 ^ 32)%Z → ulong_sub ((now + d) mod 2 ^ 32) now = d.
Proof.
  intros Hd. unfold ulong_sub. rewrite Zminus_mod_idemp_l.
  replace (now + d - now)%Z with d by lia. by apply Z.mod_small.
Qed.

(** X3.  A node heard at clock reading [now] is live at the reading taken
    [d] milliseconds later exactly when [d < 300000], also when the 32-bit
    millisecond counter has wrapped around in between. *)
Theorem isLive_after_onDataReceived (now d : Z) (data : list Byte.byte) (w : World) :
  accepted data → length (greenhouses w) = S MAX_GREENHOUSES →
  (0 ≤ d < 2 ^ 32)%Z →
  isLive ((now + d) mod 2 ^ 32)
         (greenhouses (onDataReceived now data w) !!! nodeId (as_SensorData data))
    = (d <? 300000)%Z.
Proof.
  intros Hacc Hlen Hd.
  rewrite onDataReceived_accepted; [|done|destruct Hacc as [_ ?]; lia].
  unfold isLive. simpl. by rewrite ulong_sub_add.
Qed.

(** ** One-shot commands *)

(** X4.  [sendControlToNode] on a seen node puts the node's threshold,
    hysteresis, mode and waiting command on the air unchanged and then
    changes nothing but the node's [manualCommand]: its other settings, its
    telemetry, every other node, the flash and the remote store stay. *)
Theorem sendControlToNode_frame (nodeId : nat) (w : World) :
  nodeId < length (greenhouses w) →
  isOnline (greenhouses w !!! nodeId) = true →
  let g := greenhouses w !!! nodeId in
  let w' := sendControlToNode nodeId w in
  (∃ ok, trace w' = trace w ++
     [EspNowSend (mkControlMessage nodeId (temperatureThreshold (settings g))
                    (hysteresis (settings g)) (autoMode (settings g))
                    (manualCommand (settings g))) ok]) ∧
  greenhouses w' !!! nodeId =
    mkGreenhouseData (sensor g)
      (mkGreenhouseSettings (temperatureThreshold (settings g)) (hysteresis (settings g))
         (autoMode (settings g)) NUL (schedule (settings g)))
      true (lastSeen g) ∧
  (∀ j, j ≠ nodeId → greenhouses w' !!! j = greenhouses w !!! j) ∧
  length (greenhouses w') = length (greenhouses w) ∧
  EEPROM w' = EEPROM w ∧ RTDB w' = RTDB w.
Proof.
  intros Hn Hon. cbv zeta. repeat split.
  - eexists. rewrite trace_sendControlToNode, Hon. done.
  - rewrite lookup_sendControlToNode_eq by done. rewrite Hon.
    unfold with_settings, set_manualCommand. by rewrite Hon.
  - intros j Hj. by apply lookup_sendControlToNode_ne.
  - apply length_sendControlToNode.
  - apply EEPROM_sendControlToNode.
  - apply RTDB_sendControlToNode.
Qed.

(** X5.  A command goes out once: of two calls of [sendControlToNode] in
    a row for a seen node, the first message carries the waiting command and
    the second carries none, the other three fields being the same. *)
Theorem sendControlToNode_twice (nodeId : nat) (w : World) :
  nodeId < length (greenhouses w) →
  isOnline (greenhouses w !!! nodeId) = true →
  let g := greenhouses w !!! nodeId in
  let msg cmd := mkControlMessage nodeId (temperatureThreshold (settings g))
                   (hysteresis (settings g)) (autoMode (settings g)) cmd in
  ∃ ok1 ok2,
    trace (sendControlToNode nodeId (sendControlToNode nodeId w)) =
      trace w ++ [EspNowSend (msg (manualCommand (settings g))) ok1;
                  EspNowSend (msg NUL) ok2].
Proof.
  intros Hn Hon. cbv zeta.
  set (w1 := sendControlToNode nodeId w).
  assert (H1 : greenhouses w1 !!! nodeId =
               with_settings (set_manualCommand NUL) (greenhouses w !!! nodeId)).
  { subst w1. rewrite lookup_sendControlToNode_eq by done. by rewrite Hon. }
  do 2 eexists. rewrite trace_sendControlToNode, H1. simpl. rewrite Hon.
  subst w1. rewrite trace_sendControlToNode, Hon. rewrite <- app_assoc. simpl.
  unfold controlMsg_of. simpl. done.
Qed.

(** ** The bulk command *)

Lemma length_sendControlToAllNodes_step now command w i :
  length (greenhouses (sendControlToAllNodes_step now command w i)) =
  length (greenhouses w).
Proof.
  unfold sendControlToAllNodes_step. destruct (negb _ || _); [done|].
  rewrite length_sendControlToNode.
  destruct (Ascii.eqb command cmd_O || Ascii.eqb command cmd_C);
    by rewrite ?length_upd_settings.
Qed.

Lemma sends_sendControlToAllNodes_step now command w i :
  i < 256 → i < length (greenhouses w) →
  sends (trace (sendControlToAllNodes_step now command w i)) =
    sends (trace w) + Nat.b2n (commanded now (greenhouses w !!! i)).
Proof.
  intros H8 Hi. unfold commanded.
  destruct (negb (isOnline (greenhouses w !!! i))
            || (300000 <? ulong_sub now (lastSeen (greenhouses w !!! i)))%Z) eqn:Hskip.
  - rewrite sendControlToAllNodes_step_skip by done. simpl. lia.
  - destruct (sendControlToAllNodes_step_live now command w i H8 Hi Hskip)
      as [_ [ok ->]]. rewrite sends_app. simpl. done.
Qed.

Lemma sends_sendControlToAllNodes_loop (millis : nat → Z) command n : ∀ a w,
  1 ≤ a → a + n ≤ S MAX_GREENHOUSES → MAX_GREENHOUSES < 256 →
  length (greenhouses w) = S MAX_GREENHOUSES →
  sends (trace (foldl (λ w i, sendControlToAllNodes_step (millis i) command w i)
                      w (seq a n))) =
    sends (trace w) +
    length (List.filter (λ i, commanded (millis i) (greenhouses w !!! i)) (seq a n)).
Proof.
  induction n as [|n IH]; intros a w Ha Hn Hmax Hlen; simpl; [lia|].
  rewrite IH; [|lia|lia|done|by rewrite length_sendControlToAllNodes_step].
  rewrite sends_sendControlToAllNodes_step by lia.
  rewrite (List.filter_ext_in
             (λ i, commanded (millis i)
                     (greenhouses (sendControlToAllNodes_step (millis a) command w a) !!! i))
             (λ i, commanded (millis i) (greenhouses w !!! i))).
  - destruct (commanded (millis a) (greenhouses w !!! a)); simpl; lia.
  - intros i Hin. apply in_seq in Hin.
    rewrite sendControlToAllNodes_step_frame; [done|lia|lia].
Qed.

(** X6.  [sendControlToAllNodes], node by node.  A node in 1..MAX that
    has [isOnline] set and was heard at most 300000 ms before its iteration
    ends with [manualCommand = 0] (the command has gone out) and, for 'O'
    and 'C' only, with [autoMode = false]; its threshold, hysteresis,
    schedule and telemetry stay.  Every other node in 1..MAX keeps its
    record. *)
Theorem sendControlToAllNodes_per_node (millis : nat → Z) (wifi ready : bool)
    (command : ascii) (w : World) (i : nat) :
  MAX_GREENHOUSES < 256 → length (greenhouses w) = S MAX_GREENHOUSES →
  1 ≤ i ≤ MAX_GREENHOUSES →
  let g := greenhouses w !!! i in
  greenhouses (sendControlToAllNodes millis wifi ready command w) !!! i =
    if commanded (millis i) g
    then mkGreenhouseData (sensor g)
           (mkGreenhouseSettings (temperatureThreshold (settings g))
              (hysteresis (settings g))
              (if Ascii.eqb command "O" || Ascii.eqb command "C"
               then false else autoMode (settings g))
              NUL (schedule (settings g)))
           (isOnline g) (lastSeen g)
    else g.
Proof.
  intros Hmax Hlen Hi. cbv zeta.
  rewrite sendControlToAllNodes_records by done. unfold commanded.
  by destruct (negb _ || _).
Qed.

(** X7.  [sendControlToAllNodes] transmits one message for each node in
    1..MAX that the loop does not pass over, and none besides: the number of
    transmissions is the number of such nodes, so at most MAX. *)
Theorem sendControlToAllNodes_sends (millis : nat → Z) (wifi ready : bool)
    (command : ascii) (w : World) :
  MAX_GREENHOUSES < 256 → length (greenhouses w) = S MAX_GREENHOUSES →
  let n := length (List.filter (λ i, commanded (millis i) (greenhouses w !!! i))
                               (seq 1 MAX_GREENHOUSES)) in
  sends (trace (sendControlToAllNodes millis wifi ready command w)) = sends (trace w) + n ∧
  n ≤ MAX_GREENHOUSES.
Proof.
  intros Hmax Hlen. cbv zeta. split.
  - unfold sendControlToAllNodes.
    pose proof (sends_sendControlToAllNodes_loop millis command MAX_GREENHOUSES 1 w
                  ltac:(lia) ltac:(lia) Hmax Hlen) as Hloop.
    destruct (wifi && ready); [|exact Hloop]. cbv zeta.
    destruct (rtdb_write _); simpl; rewrite sends_app, Hloop;
      change (sends [RtdbSetLastControlAll _ _ _]) with 0; lia.
  - etransitivity; [apply List.filter_length_le|]. by rewrite length_seq.
Qed.

(** ** Flash *)

(** X8.  [saveSettingsToEEPROM] writes the settings of node [k+1] to slot
    [k] for every [k < MAX], leaves the other slots, the registry and the
    remote store alone, and commits once. *)
Theorem saveSettingsToEEPROM_slots (w : World) :
  let w' := saveSettingsToEEPROM w in
  (∀ k, EEPROM w' k =
        if decide (k < MAX_GREENHOUSES) then settings (greenhouses w !!! S k)
        else EEPROM w k) ∧
  greenhouses w' = greenhouses w ∧ RTDB w' = RTDB w ∧
  trace w' = trace w ++ [EepromCommit].
Proof.
  cbv zeta. split; [|split; [|split]].
  - intros k. unfold saveSettingsToEEPROM. simpl. rewrite EEPROM_save_loop by lia.
    repeat case_decide; try done; lia.
  - apply greenhouses_saveSettingsToEEPROM.
  - apply RTDB_saveSettingsToEEPROM.
  - apply trace_saveSettingsToEEPROM.
Qed.

Lemma validated_id s :
  rejected (float_of_Z 50) (temperatureThreshold s) = false →
  rejected (float_of_Z 5) (hysteresis s) = false →
  validated s = s.
Proof. intros H1 H2. unfold validated. rewrite H1, H2. by destruct s. Qed.

(** X9.  Save, lose the registry, load: whatever registry [g0] the hub
    comes up with, node [i] gets back the settings it had at the save, all
    five fields as they were, provided threshold and hysteresis pass the
    load-time test; a field that fails it comes back as its default. *)
Theorem loadSettingsFromEEPROM_after_save (w : World) (g0 : list GreenhouseData)
    (r : Remote) (t : list Event) (i : nat) :
  1 ≤ i ≤ MAX_GREENHOUSES → length g0 = S MAX_GREENHOUSES →
  let s := settings (greenhouses w !!! i) in
  let w' := loadSettingsFromEEPROM (mkWorld g0 (EEPROM (saveSettingsToEEPROM w)) r t) in
  settings (greenhouses w' !!! i) = validated s ∧
  (rejected (float_of_Z 50) (temperatureThreshold s) = false →
   rejected (float_of_Z 5) (hysteresis s) = false →
   settings (greenhouses w' !!! i) = s).
Proof.
  intros Hi Hlen. cbv zeta.
  rewrite loadSettingsFromEEPROM_at by (simpl; lia).
  cbn [with_settings settings EEPROM].
  rewrite EEPROM_saveSettingsToEEPROM by done.
  split; [done|]. intros H1 H2. by apply validated_id.
Qed.

Lemma lookup_total_outside (l1 l2 : list GreenhouseData) j :
  length l1 = length l2 → length l2 ≤ j → l1 !!! j = l2 !!! j.
Proof.
  intros Hlen Hj. rewrite !list_lookup_total_alt.
  by rewrite !lookup_ge_None_2 by lia.
Qed.

(** X10.  [loadSettingsFromEEPROM] assigns settings only: the snapshot, the
    [isOnline] flag and [lastSeen] of every node are as before, records
    outside 1..MAX (index 0 among them) are untouched, and so are the flash,
    the remote store and the trace. *)
Theorem loadSettingsFromEEPROM_frame (w : World) :
  let w' := loadSettingsFromEEPROM w in
  (∀ j, sensor (greenhouses w' !!! j) = sensor (greenhouses w !!! j) ∧
        isOnline (greenhouses w' !!! j) = isOnline (greenhouses w !!! j) ∧
        lastSeen (greenhouses w' !!! j) = lastSeen (greenhouses w !!! j)) ∧
  (∀ j, ¬ (1 ≤ j ≤ MAX_GREENHOUSES) → greenhouses w' !!! j = greenhouses w !!! j) ∧
  length (greenhouses w') = length (greenhouses w) ∧
  EEPROM w' = EEPROM w ∧ RTDB w' = RTDB w ∧ trace w' = trace w.
Proof.
  cbv zeta.
  assert (Hlen : length (greenhouses (loadSettingsFromEEPROM w)) = length (greenhouses w)).
  { unfold loadSettingsFromEEPROM.
    by rewrite (foldl_preserves (λ w, length (greenhouses w)) _
                  length_loadSettingsFromEEPROM_step). }
  assert (Hout : ∀ j, ¬ (1 ≤ j ≤ MAX_GREENHOUSES) →
            greenhouses (loadSettingsFromEEPROM w) !!! j = greenhouses w !!! j).
  { intros j Hj. unfold loadSettingsFromEEPROM.
    apply (foldl_seq_frame loadSettingsFromEEPROM_step (λ _, True)
             (λ w i j _, loadSettingsFromEEPROM_step_frame w i j)); [done|lia]. }
  split; [|split; [done|split; [done|split; [|split]]]].
  - intros j. destruct (decide (1 ≤ j ≤ MAX_GREENHOUSES)) as [Hj|Hj];
      [|by rewrite Hout].
    destruct (decide (j < length (greenhouses w))) as [Hlt|Hge].
    + by rewrite loadSettingsFromEEPROM_at.
    + by rewrite (lookup_total_outside _ (greenhouses w) j Hlen) by lia.
  - unfold loadSettingsFromEEPROM.
    by rewrite (foldl_preserves EEPROM _ EEPROM_loadSettingsFromEEPROM_step).
  - unfold loadSettingsFromEEPROM. apply (foldl_preserves RTDB).
    intros w0 i. unfold loadSettingsFromEEPROM_step.
    repeat (match goal with |- context [if ?c then _ else _] => destruct c end); done.
  - unfold loadSettingsFromEEPROM. apply (foldl_preserves trace).
    intros w0 i. unfold loadSettingsFromEEPROM_step.
    repeat (match goal with |- context [if ?c then _ else _] => destruct c end); done.
Qed.

(** ** The download loop, further *)

Lemma download_nothing_loop n : ∀ a w,
  (∀ i, a ≤ i < a + n → getJSON i w = None) →
  foldl syncWithFirebase_download_step w (seq a n) = w.
Proof.
  induction n as [|n IH]; intros a w Hnone; simpl; [done|].
  assert (Hstep : syncWithFirebase_download_step w a = w).
  { unfold syncWithFirebase_download_step. by rewrite Hnone by lia. }
  rewrite Hstep. apply IH. intros i Hi. apply Hnone. lia.
Qed.

(** X11.  When no settings document can be read for any node, the download
    loop does nothing at all: no record changes, nothing is sent, nothing
    is written to flash or to the remote store. *)
Theorem syncWithFirebase_download_nothing_to_read (w : World) :
  (∀ i, 1 ≤ i ≤ MAX_GREENHOUSES → getJSON i w = None) →
  syncWithFirebase_download w = w.
Proof.
  intros Hnone. unfold syncWithFirebase_download. apply download_nothing_loop.
  intros i Hi. apply Hnone. lia.
Qed.

Lemma pull_temperatureThreshold_same i doc w :
  threshold_differs doc (settings (greenhouses w !!! i)) = false →
  pull_temperatureThreshold i doc w = w.
Proof.
  unfold threshold_differs, pull_temperatureThreshold.
  destruct (doc_temperatureThreshold doc); [|done]. by intros ->.
Qed.

Lemma pull_hysteresis_same i doc w :
  hysteresis_differs doc (settings (greenhouses w !!! i)) = false →
  pull_hysteresis i doc w = w.
Proof.
  unfold hysteresis_differs, pull_hysteresis.
  destruct (doc_hysteresis doc); [|done]. by intros ->.
Qed.

Lemma pull_mode_same i doc w :
  mode_differs doc (settings (greenhouses w !!! i)) = false →
  pull_mode i doc w = w.
Proof.
  unfold mode_differs, pull_mode.
  destruct (doc_mode doc); [|done]. cbv zeta. by intros ->.
Qed.

Lemma pull_manualControl_none i doc w :
  manual_given doc = false → pull_manualControl i doc w = w.
Proof.
  unfold manual_given, pull_manualControl.
  destruct (doc_manualControl doc); [|done]. cbv zeta. by intros ->.
Qed.

(** X12.  A document in which only the mode differs from the node's state
    makes the loop send exactly one message to a seen node, with the new
    mode and the other fields as they are, and then save.  The new mode is
    automatic for the string "auto" and manual for every other string. *)
Theorem syncNode_mode_only (i : nat) (doc : SettingsDoc) (mode : string) (w : World) :
  i < 256 → i < length (greenhouses w) →
  let g := greenhouses w !!! i in
  isOnline g = true →
  doc_mode doc = Some mode →
  String.eqb mode "auto" ≠ autoMode (settings g) →
  threshold_differs doc (settings g) = false →
  hysteresis_differs doc (settings g) = false →
  manual_given doc = false →
  let w' := syncNode i doc w in
  (∃ ok, trace w' = trace w ++
     [EspNowSend (mkControlMessage i (temperatureThreshold (settings g))
                    (hysteresis (settings g)) (String.eqb mode "auto")
                    (manualCommand (settings g))) ok;
      EepromCommit]) ∧
  autoMode (settings (greenhouses w' !!! i)) = String.eqb mode "auto" ∧
  (mode ≠ "auto"%string → autoMode (settings (greenhouses w' !!! i)) = false).
Proof.
  intros H8 Hi g Hon Hmode Hne Ht Hh Hc. cbv zeta.
  unfold syncNode, pull_fields.
  rewrite pull_temperatureThreshold_same by done.
  rewrite pull_hysteresis_same by done.
  assert (Hpull : pull_mode i doc w =
    sendControlToNode i (upd_settings i (set_autoMode (String.eqb mode "auto")) w)).
  { unfold pull_mode. rewrite Hmode. cbv zeta. fold g.
    replace (negb (Bool.eqb (String.eqb mode "auto") (autoMode (settings g)))) with true.
    - by rewrite uint8_t_small.
    - symmetry. apply negb_true_iff. apply not_true_is_false.
      intros Heq. apply Hne. by apply Bool.eqb_prop. }
  rewrite Hpull. rewrite pull_manualControl_none by done.
  destruct (assign_and_send i (set_autoMode (String.eqb mode "auto")) w Hi)
    as (R & _ & _ & T & _).
  rewrite trace_saveSettingsToEEPROM, greenhouses_saveSettingsToEEPROM, T, R.
  fold g. unfold send_events, sent_record. simpl. rewrite Hon. simpl.
  split; [|split].
  - eexists. by rewrite <- app_assoc.
  - done.
  - intros Hm. by apply String.eqb_neq.
Qed.




(** ** The upload loop *)

Lemma upload_step_spec now (acc : list UploadWrite * World) i :
  let g := greenhouses acc.2 !!! i in
  let r := upload_step now acc i in
  r.1 = acc.1 ++ node_writes now i g ∧
  greenhouses r.2 = greenhouses acc.2 ∧
  EEPROM r.2 = EEPROM acc.2 ∧
  trace r.2 = trace acc.2 ∧
  lastControlAll (RTDB r.2) = lastControlAll (RTDB acc.2) ∧
  settingsDocs (RTDB r.2) =
    if isLive now g && (setJSON_ok i).2
    then <[i := doc_of_json (settings_json g)]> (settingsDocs (RTDB acc.2))
    else settingsDocs (RTDB acc.2).
Proof.
  cbv zeta. unfold upload_step, node_writes, isLive.
  destruct (isOnline (greenhouses acc.2 !!! i)
            && (ulong_sub now (lastSeen (greenhouses acc.2 !!! i)) <? 300000)%Z).
  - cbv zeta. simpl. destruct ((setJSON_ok i).2); done.
  - simpl. by rewrite app_nil_r.
Qed.

Lemma upload_loop_spec (millis : nat → Z) n : ∀ a acc,
  let r := foldl (λ acc i, upload_step (millis i) acc i) acc (seq a n) in
  r.1 = acc.1 ++ flat_map (λ i, node_writes (millis i) i (greenhouses acc.2 !!! i))
                          (seq a n) ∧
  greenhouses r.2 = greenhouses acc.2 ∧
  EEPROM r.2 = EEPROM acc.2 ∧
  trace r.2 = trace acc.2 ∧
  lastControlAll (RTDB r.2) = lastControlAll (RTDB acc.2) ∧
  ∀ j, settingsDocs (RTDB r.2) !! j =
       if decide (a ≤ j < a + n)
       then if isLive (millis j) (greenhouses acc.2 !!! j) && (setJSON_ok j).2
            then Some (doc_of_json (settings_json (greenhouses acc.2 !!! j)))
            else settingsDocs (RTDB acc.2) !! j
       else settingsDocs (RTDB acc.2) !! j.
Proof.
  induction n as [|n IH]; intros a acc; cbv zeta.
  - simpl. rewrite app_nil_r. repeat split; try done.
    intros j. case_decide; [lia|done].
  - simpl.
    destruct (upload_step_spec (millis a) acc a) as (S1 & S2 & S3 & S4 & S5 & S6).
    destruct (IH (S a) (upload_step (millis a) acc a)) as (I1 & I2 & I3 & I4 & I5 & I6).
    cbv zeta in *. rewrite S2 in I1, I6.
    rewrite I1, I2, I3, I4, I5, S1, S2, S3, S4, S5, <- app_assoc.
    repeat split; try done.
    intros j. rewrite I6, S6.
    destruct (decide (j = a)) as [->|Hja].
    + rewrite decide_False by lia. rewrite decide_True by lia.
      destruct (isLive (millis a) (greenhouses acc.2 !!! a) && (setJSON_ok a).2);
        [by rewrite lookup_insert_eq|done].
    + assert (Hdoc : (if isLive (millis a) (greenhouses acc.2 !!! a) && (setJSON_ok a).2
                      then <[a:=doc_of_json (settings_json (greenhouses acc.2 !!! a))]>
                             (settingsDocs (RTDB acc.2))
                      else settingsDocs (RTDB acc.2)) !! j
                     = settingsDocs (RTDB acc.2) !! j).
      { destruct (_ && _); [by rewrite lookup_insert_ne|done]. }
      rewrite Hdoc. repeat case_decide; try done; lia.
Qed.

(** X14.  The upload loop issues, in node order, two writes (current data,
    then settings) for each node in 1..MAX that at its iteration has
    [isOnline] set and was heard less than 300000 ms ago, and no write for
    any other node; it never changes the registry, the flash or the trace. *)
Theorem syncWithFirebase_upload_writes (millis : nat → Z) (w : World) :
  let up := syncWithFirebase_upload millis w in
  up.1 = flat_map (λ i, node_writes (millis i) i (greenhouses w !!! i))
                  (seq 1 MAX_GREENHOUSES) ∧
  greenhouses up.2 = greenhouses w ∧
  EEPROM up.2 = EEPROM w ∧
  trace up.2 = trace w.
Proof.
  cbv zeta. unfold syncWithFirebase_upload.
  destruct (upload_loop_spec millis MAX_GREENHOUSES 1 ([], w))
    as (H1 & H2 & H3 & H4 & _).
  cbv zeta in *. by rewrite H1, H2, H3, H4.
Qed.

(** X15.  After the upload loop the remote settings document of a live
    node whose settings write got through is the one just written: it
    mirrors the node's threshold, hysteresis and mode and has no
    manualControl field, whatever the document held before.  The document of
    every other node is as it was. *)
Theorem syncWithFirebase_upload_overwrites (millis : nat → Z) (w : World) (i : nat) :
  let g := greenhouses w !!! i in
  let up := syncWithFirebase_upload millis w in
  if bool_decide (1 ≤ i ≤ MAX_GREENHOUSES) && isLive (millis i) g && (setJSON_ok i).2
  then getJSON i up.2 =
         Some (mkSettingsDoc (Some (json_float (temperatureThreshold (settings g))))
                 (Some (json_float (hysteresis (settings g))))
                 (Some (if autoMode (settings g) then "auto" else "manual")%string)
                 None)
  else getJSON i up.2 = getJSON i w.
Proof.
  cbv zeta. unfold syncWithFirebase_upload, getJSON.
  destruct (upload_loop_spec millis MAX_GREENHOUSES 1 ([], w)) as (_ & _ & _ & _ & _ & H).
  cbv zeta in *. rewrite H. simpl.
  destruct (decide (1 ≤ i ≤ MAX_GREENHOUSES)) as [Hi|Hi].
  - rewrite bool_decide_eq_true_2 by done. rewrite decide_True by lia. simpl.
    destruct (isLive (millis i) (greenhouses w !!! i) && (setJSON_ok i).2); done.
  - rewrite bool_decide_eq_false_2 by done. rewrite decide_False by lia. done.
Qed.

(** ** One whole cycle *)

Lemma sends_to_le_sends j evs : sends_to j evs ≤ sends evs.
Proof.
  unfold sends_to, sends. induction evs as [|e evs IH]; [done|].
  destruct e; simpl; try done. destruct (Nat.eqb _ _); simpl; lia.
Qed.

(** Transmissions that all name node [j] do not name another node. *)
Lemma counts_other i j n evs : counts j n evs → i ≠ j → sends_to i evs = 0.
Proof.
  intros (H1 & H2 & _) Hij. rewrite <- H2 in H1. clear H2.
  induction evs as [|e evs IH]; [done|].
  pose proof (sends_to_le_sends j evs) as Hle.
  unfold sends_to, sends in *. destruct e as [m ok| | |]; simpl in *; try by apply IH.
  destruct (Nat.eqb_spec (msg_targetNodeId m) j) as [Hj|Hj]; simpl in *; [|lia].
  destruct (Nat.eqb_spec (msg_targetNodeId m) i) as [Hi|Hi]; [congruence|].
  apply IH. lia.
Qed.

Lemma RTDB_pull_temperatureThreshold j doc w :
  RTDB (pull_temperatureThreshold j doc w) = RTDB w.
Proof.
  unfold pull_temperatureThreshold. destruct (doc_temperatureThreshold doc); [|done].
  destruct (fne _ _); [|done]. by rewrite RTDB_sendControlToNode.
Qed.

Lemma RTDB_pull_hysteresis j doc w : RTDB (pull_hysteresis j doc w) = RTDB w.
Proof.
  unfold pull_hysteresis. destruct (doc_hysteresis doc); [|done].
  destruct (fne _ _); [|done]. by rewrite RTDB_sendControlToNode.
Qed.

Lemma RTDB_pull_mode j doc w : RTDB (pull_mode j doc w) = RTDB w.
Proof.
  unfold pull_mode. destruct (doc_mode doc); [|done]. cbv zeta.
  destruct (negb _); [|done]. by rewrite RTDB_sendControlToNode.
Qed.

Lemma settingsDocs_pull_manualControl_ne i j doc w :
  i ≠ j →
  settingsDocs (RTDB (pull_manualControl j doc w)) !! i = settingsDocs (RTDB w) !! i.
Proof.
  intros Hij. unfold pull_manualControl. destruct (doc_manualControl doc); [|done].
  cbv zeta. destruct (negb _); [|done]. unfold updateNode_clear. cbv zeta.
  destruct (rtdb_write _); simpl; rewrite RTDB_sendControlToNode; [|done].
  simpl. by rewrite lookup_alter_ne.
Qed.

Lemma same_at_refl i w : same_at i w w.
Proof. done. Qed.

Lemma same_at_trans i w1 w2 w3 : same_at i w1 w2 → same_at i w2 w3 → same_at i w1 w3.
Proof.
  intros (A1 & B1 & C1 & D1) (A2 & B2 & C2 & D2).
  repeat split; congruence.
Qed.

(** The iteration for node [j] leaves node [i] alone. *)
Lemma download_step_same_at i j w :
  i ≠ j → j < 256 → j < length (greenhouses w) →
  same_at i w (syncWithFirebase_download_step w j).
Proof.
  intros Hij H8 Hj. unfold syncWithFirebase_download_step.
  destruct (getJSON j w) as [doc|]; [|apply same_at_refl].
  destruct (syncNode_step j doc w H8 Hj) as (_ & F & L & (evs & T & C)).
  repeat split.
  - apply F. congruence.
  - unfold syncNode, pull_fields. rewrite RTDB_saveSettingsToEEPROM.
    rewrite settingsDocs_pull_manualControl_ne by done.
    by rewrite RTDB_pull_mode, RTDB_pull_hysteresis, RTDB_pull_temperatureThreshold.
  - rewrite T, !sends_to_app, (counts_other i j _ evs C Hij).
    change (sends_to i [EepromCommit]) with 0. lia.
  - done.
Qed.

Lemma download_loop_same_at i n : ∀ a w,
  ¬ (a ≤ i < a + n) → a + n ≤ 256 → a + n ≤ length (greenhouses w) →
  same_at i w (foldl syncWithFirebase_download_step w (seq a n)).
Proof.
  induction n as [|n IH]; intros a w Hi H8 Hlen; simpl; [apply same_at_refl|].
  assert (Hstep : same_at i w (syncWithFirebase_download_step w a))
    by (apply download_step_same_at; lia).
  eapply same_at_trans; [exact Hstep|].
  apply IH; [lia|lia|]. destruct Hstep as (_ & _ & _ & ->). lia.
Qed.

(** The string written for the mode reads back as the mode. *)
Lemma mode_round_trip (b : bool) :
  String.eqb (if b then "auto" else "manual") "auto" = b.
Proof. by destruct b. Qed.

(** X16.  One cycle with Firebase ready, seen from a node that is live
    when the upload loop reaches it and whose settings write gets through
    (its two numbers reading back from JSON as equal numbers): the download
    loop then finds the document the upload loop has just written, and the
    cycle leaves the node's record as it was and transmits nothing to the
    node.  What the remote document held before the cycle, an edited
    threshold or a manualControl command, does not reach a live node. *)
Theorem syncWithFirebase_live_node_unchanged (millis : nat → Z) (w : World) (i : nat) :
  MAX_GREENHOUSES < 256 → length (greenhouses w) = S MAX_GREENHOUSES →
  1 ≤ i ≤ MAX_GREENHOUSES →
  let g := greenhouses w !!! i in
  isLive (millis i) g = true →
  (setJSON_ok i).2 = true →
  fne (json_float (temperatureThreshold (settings g))) (temperatureThreshold (settings g))
    = false →
  fne (json_float (hysteresis (settings g))) (hysteresis (settings g)) = false →
  let w' := (syncWithFirebase true millis w).2 in
  greenhouses w' !!! i = g ∧
  sends_to i (trace w') = sends_to i (trace w).
Proof.
  intros Hmax Hlen Hi g Hlive Hok Ht Hh. cbv zeta. unfold syncWithFirebase. cbn [negb snd].
  destruct (upload_loop_spec millis MAX_GREENHOUSES 1 ([], w))
    as (_ & Ug & _ & Ut & _ & Ud).
  specialize (Ud i). cbv zeta in Ug, Ut, Ud. cbn [snd] in Ug, Ut, Ud. fold g in Ud.
  rewrite decide_True, Hlive, Hok in Ud by lia. cbn [andb] in Ud.
  fold (syncWithFirebase_upload millis w) in Ug, Ut, Ud.
  unfold settings_json, doc_of_json in Ud. cbn in Ud.
  set (w1 := (syncWithFirebase_upload millis w).2) in *.
  set (doc := mkSettingsDoc
                (Some (json_float (temperatureThreshold (settings g))))
                (Some (json_float (hysteresis (settings g))))
                (Some (if autoMode (settings g) then "auto" else "manual")%string)
                None) in *.
  assert (Hlen1 : length (greenhouses w1) = S MAX_GREENHOUSES) by (by rewrite Ug).
  assert (Hseq : seq 1 MAX_GREENHOUSES =
                 seq 1 (i - 1) ++ i :: seq (S i) (MAX_GREENHOUSES - i)).
  { replace MAX_GREENHOUSES with ((i - 1) + S (MAX_GREENHOUSES - i)) at 1 by lia.
    rewrite seq_app. replace (1 + (i - 1)) with i by lia. by rewrite <- cons_seq. }
  unfold syncWithFirebase_download. rewrite Hseq, foldl_app. cbn [foldl].
  (* the iterations before [i] *)
  destruct (download_loop_same_at i (i - 1) 1 w1 ltac:(lia) ltac:(lia) ltac:(lia))
    as (A1 & B1 & C1 & D1).
  set (wa := foldl syncWithFirebase_download_step w1 (seq 1 (i - 1))) in *.
  (* iteration [i] reads the document just written *)
  assert (Hdoc : syncWithFirebase_download_step wa i = syncNode i doc wa).
  { unfold syncWithFirebase_download_step, getJSON. by rewrite B1, Ud. }
  rewrite Hdoc.
  assert (Hga : greenhouses wa !!! i = g) by (by rewrite A1, Ug).
  destruct (syncNode_step i doc wa ltac:(lia) ltac:(lia))
    as (R & _ & L & (evs & T & (Cn & _))).
  rewrite Hga in R, Cn.
  assert (Hfix : pulled_record doc g = g).
  { apply pulled_record_fixed; try done.
    unfold mode_differs. simpl. by rewrite mode_round_trip, Bool.eqb_reflx. }
  assert (Hch : changed_fields doc (settings g) = 0).
  { unfold changed_fields, threshold_differs, hysteresis_differs, mode_differs,
      manual_given. simpl. rewrite Ht, Hh, mode_round_trip, Bool.eqb_reflx. done. }
  rewrite Hch in Cn. replace (if isOnline g then 0 else 0) with 0 in Cn
    by (by destruct (isOnline g)).
  set (wb := syncNode i doc wa) in *.
  (* the iterations after [i] *)
  destruct (download_loop_same_at i (MAX_GREENHOUSES - i) (S i) wb
              ltac:(lia) ltac:(lia) ltac:(lia)) as (A2 & _ & C2 & _).
  split.
  - by rewrite A2, R, Hfix.
  - rewrite C2, T, !sends_to_app, Cn, C1, Ut.
    change (sends_to i [EepromCommit]) with 0. lia.
Qed.

End Hub.

(** * The statements on the example installation *)

(** C1, witness: node 2 has [isOnline] set; after the call its command is 0,
    on a radio that delivers and on one that does not. *)
Lemma sendControlToNode_manualCommand_witness :
  2 < length (greenhouses example_world) ∧
  manualCommand (settings (greenhouses (sendControlToNode radio_ok 2 example_world) !!! 2))
    = NUL ∧
  manualCommand (settings (greenhouses (sendControlToNode radio_down 2 example_world) !!! 2))
    = NUL.
Proof.
  split; [simpl; lia|]. split.
  - apply (sendControlToNode_manualCommand radio_ok 2 example_world). simpl; lia.
  - apply (sendControlToNode_manualCommand radio_down 2 example_world). simpl; lia.
Defined.

(** C1, counterexample: node 1 was never seen and holds the command 'O';
    [sendControlToNode 1] returns at the guard and the command is still
    'O', not 0. *)
Lemma sendControlToNode_skipped_keeps_command :
  isOnline (greenhouses example_world !!! 1) = false ∧
  manualCommand (settings (greenhouses (sendControlToNode radio_ok 1 example_world) !!! 1))
    = cmd_O ∧
  cmd_O ≠ NUL.
Proof. repeat split. discriminate. Qed.

(** C2, witness: nothing is sent to node 1, one message goes to node 2. *)
Lemma sendControlToNode_gate_witness :
  isOnline (greenhouses example_world !!! 1) = false ∧
  sendControlToNode radio_ok 1 example_world = example_world ∧
  isOnline (greenhouses example_world !!! 2) = true ∧
  sends (trace (sendControlToNode radio_ok 2 example_world)) = 1.
Proof.
  split; [reflexivity|]. split.
  - apply (proj1 (sendControlToNode_gate radio_ok 1 example_world)). reflexivity.
  - split; [reflexivity|].
    destruct (proj2 (sendControlToNode_gate radio_ok 2 example_world) eq_refl)
      as (ok & _ & H). exact H.
Defined.

(** C2, counterexample: node 2 was last seen at 0 and the clock reads
    400000, so the node is not live; [sendControlToNode 2] transmits all the
    same. *)
Lemma sendControlToNode_sends_to_stale_node :
  isLive 400000 (greenhouses example_world !!! 2) = false ∧
  sends (trace example_world) = 0 ∧
  sends (trace (sendControlToNode radio_ok 2 example_world)) = 1.
Proof. repeat split. Qed.

(** C3, witness: the remote document of node 2 says "open" and the write
    gets through. *)
Lemma pull_manualControl_applies_witness :
  2 < 256 ∧ 2 < length (greenhouses example_world_remote) ∧
  doc_manualControl doc_open = Some "open"%string ∧
  let w' := pull_manualControl radio_ok link_up 2 doc_open example_world_remote in
  manualCommand (settings (greenhouses w' !!! 2)) = NUL ∧
  trace w' = [EspNowSend (mkControlMessage 2 default_temperatureThreshold
                            default_hysteresis true cmd_O) true;
              RtdbClearManualControl 2 true] ∧
  getJSON 2 w' = Some (mkSettingsDoc (Some (float_of_Z 30)) (Some (float_of_Z 1)) None None).
Proof.
  split; [lia|]. split; [simpl; lia|]. split; [reflexivity|].
  destruct (proj2 (proj2 (pull_manualControl_applies radio_ok link_up 2 doc_open
                            "open" example_world_remote ltac:(lia) ltac:(simpl; lia)
                            eq_refl))
              (or_introl eq_refl)) as (_ & Hrec & _ & Htrace & Hdoc & _).
  split; [exact (f_equal (λ g, manualCommand (settings g)) Hrec)|].
  split; [exact Htrace|exact Hdoc].
Defined.

(** C3, counterexample.  "stop" is pulled for node 1, which has never been
    seen: the command is applied to the record, but no message is sent and
    the record keeps 'S'.  "open" is pulled for node 2 while writes to the
    database fail: the remote document still says "open". *)
Lemma pull_manualControl_unseen_node_and_failed_write :
  (isOnline (greenhouses example_world !!! 1) = false ∧
   sends (trace (pull_manualControl radio_ok link_up 1 doc_stop example_world)) = 0 ∧
   manualCommand (settings (greenhouses
     (pull_manualControl radio_ok link_up 1 doc_stop example_world) !!! 1)) = cmd_S) ∧
  (getJSON 2 example_world_remote = Some doc_open ∧
   getJSON 2 (pull_manualControl radio_ok link_down 2 doc_open example_world_remote)
     = Some doc_open ∧
   doc_manualControl doc_open = Some "open"%string).
Proof. repeat split. Qed.

(** C4, witness: threshold and hysteresis of node 2 both differ from the
    document. *)
Lemma syncNode_sends_and_persists_witness :
  2 < 256 ∧ 1 ≤ 2 ≤ 3 ∧ 2 < length (greenhouses example_world) ∧
  let w' := syncNode 3 radio_ok link_up 2 doc_two_numbers example_world in
  trace w' =
    [EspNowSend (mkControlMessage 2 (float_of_Z 30) default_hysteresis true NUL) true;
     EspNowSend (mkControlMessage 2 (float_of_Z 30) (float_of_Z 1) true NUL) true;
     EepromCommit] ∧
  temperatureThreshold (settings (greenhouses w' !!! 2)) = float_of_Z 30 ∧
  EEPROM w' 1 = settings (greenhouses w' !!! 2) ∧
  sends_to 2 (trace w') = 2 ∧ commits (trace w') = 1.
Proof.
  split; [lia|]. split; [lia|]. split; [simpl; lia|].
  destruct (syncNode_sends_and_persists 3 radio_ok link_up 2 doc_two_numbers
              example_world ltac:(lia) ltac:(lia) ltac:(simpl; lia))
    as (Ht & Hr & _ & Hf & H1 & _ & H3 & _).
  split; [exact Ht|].
  split; [exact (f_equal (λ g, temperatureThreshold (settings g)) Hr)|].
  split; [exact (Hf 1)|].
  split; [exact H1|exact H3].
Defined.

(** C4, counterexample: with two fields changed node 2 is sent two
    messages, not one, the first of them before the hysteresis has been
    looked at; and with an empty document, where no field differs, the
    settings are written to flash all the same. *)
Lemma syncNode_two_sends_and_unconditional_save :
  (changed_fields doc_two_numbers (settings (greenhouses example_world !!! 2)) = 2 ∧
   trace (syncNode 3 radio_ok link_up 2 doc_two_numbers example_world) =
     [EspNowSend (mkControlMessage 2 (float_of_Z 30) default_hysteresis true NUL) true;
      EspNowSend (mkControlMessage 2 (float_of_Z 30) (float_of_Z 1) true NUL) true;
      EepromCommit]) ∧
  (changed_fields doc_empty (settings (greenhouses example_world !!! 2)) = 0 ∧
   trace (syncNode 3 radio_ok link_up 2 doc_empty example_world) = [EepromCommit]).
Proof. repeat split. Qed.

(** C5, witness: the document with two numbers, twice. *)
Lemma syncNode_twice_witness :
  2 < 256 ∧ 2 < length (greenhouses example_world) ∧
  let w1 := syncNode 3 radio_ok link_up 2 doc_two_numbers example_world in
  let w2 := syncNode 3 radio_ok link_up 2 doc_two_numbers w1 in
  sends (trace w1) = 2 ∧ sends (trace w2) = 2.
Proof.
  split; [lia|]. split; [simpl; lia|].
  assert (Ht : ∀ v, doc_temperatureThreshold doc_two_numbers = Some v → isnan v = false).
  { intros v Hv. injection Hv as <-. reflexivity. }
  assert (Hh : ∀ v, doc_hysteresis doc_two_numbers = Some v → isnan v = false).
  { intros v Hv. injection Hv as <-. reflexivity. }
  destruct (syncNode_twice 3 radio_ok link_up 2 doc_two_numbers example_world
              ltac:(lia) ltac:(simpl; lia) Ht Hh) as (H1 & H2 & _).
  split; [exact H1|exact H2].
Defined.

(** C5, counterexample: threshold and hysteresis differ and the document
    says "open".  The first run sends three messages, not one; the second
    run of the same document sends the command once more, not zero times. *)
Lemma syncNode_open_twice :
  let w1 := syncNode 3 radio_ok link_up 2 doc_open example_world in
  let w2 := syncNode 3 radio_ok link_up 2 doc_open w1 in
  sends (trace example_world) = 0 ∧ sends (trace w1) = 3 ∧ sends (trace w2) = 4.
Proof. repeat split. Qed.

(** C6, at the edge of the window.  Node 3 was seen at 0 and the clock
    reads exactly 300000: the upload loop's test [millis() - lastSeen <
    300000] calls the node not live, yet [sendControlToAllNodes 'O'] does not
    pass it over: it sends the command and switches the node to manual.  At
    250000 the node is live and is commanded, at 350000 it is passed over. *)
Theorem sendControlToAllNodes_at_300000 :
  let run (t : Z) :=
    sendControlToAllNodes 3 radio_ok link_up (λ _, t) true true cmd_O example_world in
  (isLive 300000 (greenhouses example_world !!! 3) = false ∧
   sends_to 3 (trace (run 300000%Z)) = 1 ∧
   autoMode (settings (greenhouses (run 300000%Z) !!! 3)) = false ∧
   autoMode (settings (greenhouses example_world !!! 3)) = true) ∧
  (isLive 250000 (greenhouses example_world !!! 3) = true ∧
   sends_to 3 (trace (run 250000%Z)) = 1) ∧
  (isLive 350000 (greenhouses example_world !!! 3) = false ∧
   sends_to 3 (trace (run 350000%Z)) = 0 ∧
   greenhouses (run 350000%Z) !!! 3 = greenhouses example_world !!! 3).
Proof. repeat split. Qed.

(** C7, witness: slot 1 of the flash holds threshold 999 and hysteresis 2. *)
Lemma loadSettingsFromEEPROM_validates_witness :
  length (greenhouses example_world_flash) = 4 ∧ 1 ≤ 2 ≤ 3 ∧
  let s := settings (greenhouses (loadSettingsFromEEPROM 3 example_world_flash) !!! 2) in
  temperatureThreshold s = default_temperatureThreshold ∧
  hysteresis s = float_of_Z 2 ∧
  (F2Q (temperatureThreshold s) <= 50)%Q.
Proof.
  split; [reflexivity|]. split; [lia|].
  destruct (loadSettingsFromEEPROM_validates 3 example_world_flash 2 eq_refl ltac:(lia))
    as (H1 & H2 & (_ & _ & H3) & _).
  split; [exact H1|]. split; [exact H2|]. apply H3. reflexivity.
Defined.

(** The cases named in the specification: NaN and 999 load as 25.0, -1
    loads as 0.5. *)
Lemma loadSettingsFromEEPROM_examples :
  let s1 := settings (greenhouses (loadSettingsFromEEPROM 3 example_world_flash) !!! 1) in
  let s2 := settings (greenhouses (loadSettingsFromEEPROM 3 example_world_flash) !!! 2) in
  temperatureThreshold (example_flash 0) = S754_nan ∧
  temperatureThreshold s1 = default_temperatureThreshold ∧
  hysteresis (example_flash 0) = float_of_Z (-1) ∧
  hysteresis s1 = default_hysteresis ∧
  temperatureThreshold (example_flash 1) = float_of_Z 999 ∧
  temperatureThreshold s2 = default_temperatureThreshold.
Proof. repeat split. Qed.

(** C8, witness: the remote threshold of node 2 is 999. *)
Lemma syncNode_threshold_not_validated_witness :
  2 < 256 ∧ 2 < length (greenhouses example_world) ∧
  isOnline (greenhouses example_world !!! 2) = true ∧
  doc_temperatureThreshold doc_999 = Some (float_of_Z 999) ∧
  fne (float_of_Z 999) (temperatureThreshold (settings (greenhouses example_world !!! 2)))
    = true ∧
  rejected (float_of_Z 50) (float_of_Z 999) = true ∧
  let w' := syncNode 3 radio_ok link_up 2 doc_999 example_world in
  temperatureThreshold (settings (greenhouses w' !!! 2)) = float_of_Z 999 ∧
  ∃ ok rest,
    trace w' = EspNowSend (mkControlMessage 2 (float_of_Z 999) default_hysteresis
                             true NUL) ok :: rest.
Proof.
  split; [lia|]. split; [simpl; lia|]. do 4 (split; [reflexivity|]).
  exact (syncNode_threshold_not_validated 3 radio_ok link_up 2 doc_999 (float_of_Z 999)
           example_world ltac:(lia) ltac:(simpl; lia) eq_refl eq_refl eq_refl).
Defined.

(** C9, witness: one packet from node 3. *)
Lemma onDataReceived_slot_is_nodeId_witness :
  length (greenhouses example_world) = 4 ∧
  accepted 3 24 example_SensorData (packet_from Byte.x03) ∧
  nodeId (sensor (greenhouses
    (onDataReceived_all 3 24 example_SensorData [(1000%Z, packet_from Byte.x03)]
       example_world) !!! 3)) = 3.
Proof.
  assert (Hacc : accepted 3 24 example_SensorData (packet_from Byte.x03)).
  { split; [reflexivity|]. simpl. lia. }
  split; [reflexivity|]. split; [exact Hacc|].
  apply (proj2 (proj2 (onDataReceived_slot_is_nodeId 3 24 example_SensorData
                         example_world eq_refl))).
  apply Exists_cons_hd. split; [exact Hacc|reflexivity].
Defined.

(** * The further properties on the example installation *)

(** X1, witness: the empty packet. *)
Lemma onDataReceived_rejects_witness :
  length ([] : list Byte.byte) ≠ 24 ∧
  onDataReceived 3 24 example_SensorData 1000 [] example_world = example_world.
Proof.
  assert (H : length ([] : list Byte.byte) ≠ 24) by (simpl; lia).
  split; [exact H|].
  apply (onDataReceived_rejects 3 24 example_SensorData 1000 [] example_world).
  left. exact H.
Defined.

(** X2, witness: a packet from node 1, which had not been seen and holds
    the command 'O'. *)
Lemma onDataReceived_accepts_witness :
  accepted 3 24 example_SensorData (packet_from Byte.x01) ∧
  length (greenhouses example_world) = 4 ∧
  let w' := onDataReceived 3 24 example_SensorData 1000 (packet_from Byte.x01)
              example_world in
  isOnline (greenhouses w' !!! 1) = true ∧
  lastSeen (greenhouses w' !!! 1) = 1000%Z ∧
  manualCommand (settings (greenhouses w' !!! 1)) = cmd_O ∧
  trace w' = [].
Proof.
  assert (Hacc : accepted 3 24 example_SensorData (packet_from Byte.x01)).
  { split; [reflexivity|]. simpl. lia. }
  split; [exact Hacc|]. split; [reflexivity|].
  destruct (onDataReceived_accepts 3 24 example_SensorData 1000 (packet_from Byte.x01)
              example_world Hacc eq_refl) as (_ & H2 & H3 & H4 & _ & _ & _ & H8).
  split; [exact H2|]. split; [exact H3|]. split; [|exact H8].
  exact (f_equal manualCommand H4).
Defined.

(** X3, witness: the packet arrives 1000 ms before the counter wraps and
    the node is looked at 6000 ms later, when the counter reads 5000. *)
Lemma isLive_after_onDataReceived_witness :
  accepted 3 24 example_SensorData (packet_from Byte.x03) ∧
  length (greenhouses example_world) = 4 ∧
  (0 ≤ 6000 < 2 ^ 32)%Z ∧
  isLive 5000
    (greenhouses (onDataReceived 3 24 example_SensorData 4294966296
                    (packet_from Byte.x03) example_world) !!! 3) = true.
Proof.
  assert (Hacc : accepted 3 24 example_SensorData (packet_from Byte.x03)).
  { split; [reflexivity|]. simpl. lia. }
  split; [exact Hacc|]. split; [reflexivity|]. split; [lia|].
  exact (isLive_after_onDataReceived 3 24 example_SensorData 4294966296 6000
           (packet_from Byte.x03) example_world Hacc eq_refl ltac:(lia)).
Defined.

(** X4, witness: node 2 with the command 'C' waiting. *)
Lemma sendControlToNode_frame_witness :
  2 < length (greenhouses example_world_cmd) ∧
  isOnline (greenhouses example_world_cmd !!! 2) = true ∧
  let w' := sendControlToNode radio_ok 2 example_world_cmd in
  (∃ ok, trace w' = [EspNowSend (mkControlMessage 2 default_temperatureThreshold
                                   default_hysteresis true cmd_C) ok]) ∧
  greenhouses w' !!! 3 = greenhouses example_world_cmd !!! 3 ∧
  EEPROM w' = EEPROM example_world_cmd.
Proof.
  split; [simpl; lia|]. split; [reflexivity|].
  destruct (sendControlToNode_frame radio_ok 2 example_world_cmd
              ltac:(simpl; lia) eq_refl) as (H1 & _ & H3 & _ & H5 & _).
  split; [exact H1|]. split; [apply H3; lia|exact H5].
Defined.

(** X5, witness: the same node, two calls. *)
Lemma sendControlToNode_twice_witness :
  2 < length (greenhouses example_world_cmd) ∧
  isOnline (greenhouses example_world_cmd !!! 2) = true ∧
  ∃ ok1 ok2,
    trace (sendControlToNode radio_ok 2 (sendControlToNode radio_ok 2 example_world_cmd)) =
      [EspNowSend (mkControlMessage 2 default_temperatureThreshold default_hysteresis
                     true cmd_C) ok1;
       EspNowSend (mkControlMessage 2 default_temperatureThreshold default_hysteresis
                     true NUL) ok2].
Proof.
  split; [simpl; lia|]. split; [reflexivity|].
  exact (sendControlToNode_twice radio_ok 2 example_world_cmd ltac:(simpl; lia) eq_refl).
Defined.

(** X6, witness: 'O' to all nodes, 250000 ms after nodes 2 and 3 were heard;
    node 1, never seen, keeps its record. *)
Lemma sendControlToAllNodes_per_node_witness :
  3 < 256 ∧ length (greenhouses example_world) = 4 ∧ 1 ≤ 3 ≤ 3 ∧
  let w' := sendControlToAllNodes 3 radio_ok link_up (λ _, 250000%Z) true true cmd_O
              example_world in
  autoMode (settings (greenhouses w' !!! 3)) = false ∧
  manualCommand (settings (greenhouses w' !!! 3)) = NUL ∧
  greenhouses w' !!! 1 = greenhouses example_world !!! 1.
Proof.
  split; [lia|]. split; [reflexivity|]. split; [lia|].
  pose proof (sendControlToAllNodes_per_node 3 radio_ok link_up (λ _, 250000%Z) true true
                cmd_O example_world 3 ltac:(lia) eq_refl ltac:(lia)) as H3.
  pose proof (sendControlToAllNodes_per_node 3 radio_ok link_up (λ _, 250000%Z) true true
                cmd_O example_world 1 ltac:(lia) eq_refl ltac:(lia)) as H1.
  cbv zeta in *. rewrite H3. split; [reflexivity|]. split; [reflexivity|exact H1].
Defined.

(** X7, witness: two of the three nodes are commanded. *)
Lemma sendControlToAllNodes_sends_witness :
  3 < 256 ∧ length (greenhouses example_world) = 4 ∧
  sends (trace (sendControlToAllNodes 3 radio_ok link_up (λ _, 250000%Z) true true cmd_S
                  example_world)) = 2.
Proof.
  split; [lia|]. split; [reflexivity|].
  exact (proj1 (sendControlToAllNodes_sends 3 radio_ok link_up (λ _, 250000%Z) true true
                  cmd_S example_world ltac:(lia) eq_refl)).
Defined.

(** X9, witness: node 2 is saved with 'C' waiting and loaded into a fresh
    registry. *)
Lemma loadSettingsFromEEPROM_after_save_witness :
  1 ≤ 2 ≤ 3 ∧ length (greenhouses example_world) = 4 ∧
  settings (greenhouses
    (loadSettingsFromEEPROM 3
       (mkWorld (greenhouses example_world)
                (EEPROM (saveSettingsToEEPROM 3 example_world_cmd))
                (mkRemote ∅ None) [])) !!! 2)
    = settings (greenhouses example_world_cmd !!! 2).
Proof.
  split; [lia|]. split; [reflexivity|].
  apply (proj2 (loadSettingsFromEEPROM_after_save 3 example_world_cmd
                  (greenhouses example_world) (mkRemote ∅ None) [] 2
                  ltac:(lia) eq_refl)); reflexivity.
Defined.

(** X11, witness: the remote store is empty. *)
Lemma syncWithFirebase_download_nothing_to_read_witness :
  (∀ i, 1 ≤ i ≤ 3 → getJSON i example_world = None) ∧
  syncWithFirebase_download 3 radio_ok link_up example_world = example_world.
Proof.
  assert (H : ∀ i, 1 ≤ i ≤ 3 → getJSON i example_world = None).
  { intros i _. apply lookup_empty. }
  split; [exact H|].
  exact (syncWithFirebase_download_nothing_to_read 3 radio_ok link_up example_world H).
Defined.

(** X12, witness: the remote mode of node 2 is "manual". *)
Lemma syncNode_mode_only_witness :
  2 < 256 ∧ 2 < length (greenhouses example_world) ∧
  isOnline (greenhouses example_world !!! 2) = true ∧
  doc_mode doc_manual = Some "manual"%string ∧
  ∃ ok, trace (syncNode 3 radio_ok link_up 2 doc_manual example_world) =
    [EspNowSend (mkControlMessage 2 default_temperatureThreshold default_hysteresis
                   false NUL) ok;
     EepromCommit].
Proof.
  split; [lia|]. split; [simpl; lia|]. split; [reflexivity|]. split; [reflexivity|].
  exact (proj1 (syncNode_mode_only 3 radio_ok link_up 2 doc_manual "manual" example_world
                  ltac:(lia) ltac:(simpl; lia) eq_refl eq_refl
                  ltac:(discriminate) eq_refl eq_refl eq_refl)).
Defined.


(** X16, witness: node 2 is live and the remote store holds an edited
    document with the command "open" for it; after the cycle the node's
    record is as before and nothing has been sent to it. *)
Lemma syncWithFirebase_live_node_unchanged_witness :
  3 < 256 ∧ length (greenhouses example_world_remote) = 4 ∧ 1 ≤ 2 ≤ 3 ∧
  isLive 1000 (greenhouses example_world_remote !!! 2) = true ∧
  getJSON 2 example_world_remote = Some doc_open ∧
  let w' := (syncWithFirebase 3 radio_ok link_up uploads_ok json_exact true
               (λ _, 1000%Z) example_world_remote).2 in
  greenhouses w' !!! 2 = greenhouses example_world_remote !!! 2 ∧
  sends_to 2 (trace w') = 0.
Proof.
  split; [lia|]. split; [reflexivity|]. split; [lia|]. split; [reflexivity|].
  split; [reflexivity|].
  exact (syncWithFirebase_live_node_unchanged 3 radio_ok link_up uploads_ok json_exact
           (λ _, 1000%Z) example_world_remote 2
           ltac:(lia) eq_refl ltac:(lia) eq_refl eq_refl eq_refl eq_refl).
Defined.
